(** * SPI transport of the NCP (src/ncp/ncp_spi.cpp)

    A shallow embedding of [Thread::NcpSpi]: the five-byte frame header
    codec, the transaction-completion handler, the outbound frame assembly
    interface and the two deferred handlers, followed by the properties of
    the transport that its specification states. *)

From stdpp Require Import base list numbers.
From Stdlib Require Import ZArith Lia.

Local Open Scope Z_scope.

(** ** Machine integers

    Bytes and 16-bit lengths are integers; a conversion to [uint8_t] or
    [uint16_t] is written out as a reduction modulo the width. *)

Definition u8 (x : Z) : Z := x mod 2 ^ 8.
Definition u16 (x : Z) : Z := x mod 2 ^ 16.

(** [#define SPI_RESET_FLAG 0x80] *)
Definition SPI_RESET_FLAG : Z := 0x80.

(** Modelled from the spec: [SPI_HEADER_LENGTH] is declared in
    ncp/ncp_spi.hpp, which is not part of the sources at hand; the frame
    header is five bytes (flag byte, two bytes of accept length, two bytes
    of data length), as the codec below also shows. *)
Definition SPI_HEADER_LENGTH : Z := 5.

(** ** Header codec

    A header is the front of a byte buffer.  [byte_at] is the C read
    [header[i]]; the buffers of the transport all hold at least a header,
    so the default is never met on a well-formed state. *)

Definition byte_at (header : list Z) (i : nat) : Z := default 0 (header !! i).

Definition spi_header_set_flag_byte (header : list Z) (value : Z) : list Z :=
  <[0%nat := u8 value]> header.

Definition spi_header_set_accept_len (header : list Z) (len : Z) : list Z :=
  let len := u16 len in
  let header := <[1%nat := Z.land (Z.shiftr len 0) 0xFF]> header in
  <[2%nat := Z.land (Z.shiftr len 8) 0xFF]> header.

Definition spi_header_set_data_len (header : list Z) (len : Z) : list Z :=
  let len := u16 len in
  let header := <[3%nat := Z.land (Z.shiftr len 0) 0xFF]> header in
  <[4%nat := Z.land (Z.shiftr len 8) 0xFF]> header.

Definition spi_header_get_flag_byte (header : list Z) : Z :=
  byte_at header 0.

Definition spi_header_get_accept_len (header : list Z) : Z :=
  u16 (byte_at header 1 + Z.shiftl (byte_at header 2) 8).

Definition spi_header_get_data_len (header : list Z) : Z :=
  u16 (byte_at header 3 + Z.shiftl (byte_at header 4) 8).

(** ** Errors, buffers and effects *)

Inductive ThreadError : Set :=
| kThreadError_None
| kThreadError_Busy
| kThreadError_Failed
| kThreadError_InvalidState.

Global Instance ThreadError_eq_dec : EqDecision ThreadError.
Proof. solve_decision. Defined.

(** The four byte arrays owned by the transport.  Every pointer the
    transport hands to the bus driver, and so every pointer the driver hands
    back to the completion callback, is the start of one of them. *)
Inductive buffer : Set :=
| SendFrame
| EmptySendFrame
| ReceiveFrame
| EmptyReceiveFrame.

Global Instance buffer_eq_dec : EqDecision buffer.
Proof. solve_decision. Defined.

(** The two tasklets of the transport. *)
Inductive tasklet : Set :=
| mHandleRxFrame
| mHandleSendDone.

Global Instance tasklet_eq_dec : EqDecision tasklet.
Proof. solve_decision. Defined.

(** The arguments of [otPlatSpiSlavePrepareTransaction]. *)
Record transaction : Set := Transaction {
  aOutputBuf : buffer;
  aOutputBufLen : Z;
  aInputBuf : buffer;
  aInputBufLen : Z;
  aRequestTransactionFlag : bool
}.

(** What the transport asks of its collaborators: the calls that leave
    ncp_spi.cpp, in program order. *)
Inductive effect : Set :=
| SpiSlaveEnable
| SpiSlavePrepareTransaction (t : transaction)
| Post (t : tasklet)
| HandleReceive (buf : buffer) (offset len : Z)
| HandleSpaceAvailableInTxBuffer.

Global Instance transaction_eq_dec : EqDecision transaction.
Proof. solve_decision. Defined.

Global Instance effect_eq_dec : EqDecision effect.
Proof. solve_decision. Defined.

(** ** The object *)

Record NcpSpi : Type := mkNcpSpi {
  mSendFrame : list Z;
  mReceiveFrame : list Z;
  mEmptySendFrame : list Z;
  mEmptyReceiveFrame : list Z;
  (** [mSendFrameIter], as an offset from the start of [mSendFrame] *)
  mSendFrameIter : Z;
  mSending : bool;
  mHandlingRxFrame : bool;
  mHandlingSendDone : bool
}.

Definition load (s : NcpSpi) (b : buffer) : list Z :=
  match b with
  | SendFrame => mSendFrame s
  | EmptySendFrame => mEmptySendFrame s
  | ReceiveFrame => mReceiveFrame s
  | EmptyReceiveFrame => mEmptyReceiveFrame s
  end.

Definition store (b : buffer) (bytes : list Z) (s : NcpSpi) : NcpSpi :=
  match b with
  | SendFrame =>
      mkNcpSpi bytes (mReceiveFrame s) (mEmptySendFrame s)
        (mEmptyReceiveFrame s) (mSendFrameIter s) (mSending s)
        (mHandlingRxFrame s) (mHandlingSendDone s)
  | EmptySendFrame =>
      mkNcpSpi (mSendFrame s) (mReceiveFrame s) bytes
        (mEmptyReceiveFrame s) (mSendFrameIter s) (mSending s)
        (mHandlingRxFrame s) (mHandlingSendDone s)
  | ReceiveFrame =>
      mkNcpSpi (mSendFrame s) bytes (mEmptySendFrame s)
        (mEmptyReceiveFrame s) (mSendFrameIter s) (mSending s)
        (mHandlingRxFrame s) (mHandlingSendDone s)
  | EmptyReceiveFrame =>
      mkNcpSpi (mSendFrame s) (mReceiveFrame s) (mEmptySendFrame s)
        bytes (mSendFrameIter s) (mSending s)
        (mHandlingRxFrame s) (mHandlingSendDone s)
  end.

Definition set_mSendFrameIter (i : Z) (s : NcpSpi) : NcpSpi :=
  mkNcpSpi (mSendFrame s) (mReceiveFrame s) (mEmptySendFrame s)
    (mEmptyReceiveFrame s) i (mSending s)
    (mHandlingRxFrame s) (mHandlingSendDone s).

Definition set_mSending (b : bool) (s : NcpSpi) : NcpSpi :=
  mkNcpSpi (mSendFrame s) (mReceiveFrame s) (mEmptySendFrame s)
    (mEmptyReceiveFrame s) (mSendFrameIter s) b
    (mHandlingRxFrame s) (mHandlingSendDone s).

Definition set_mHandlingRxFrame (b : bool) (s : NcpSpi) : NcpSpi :=
  mkNcpSpi (mSendFrame s) (mReceiveFrame s) (mEmptySendFrame s)
    (mEmptyReceiveFrame s) (mSendFrameIter s) (mSending s)
    b (mHandlingSendDone s).

Definition set_mHandlingSendDone (b : bool) (s : NcpSpi) : NcpSpi :=
  mkNcpSpi (mSendFrame s) (mReceiveFrame s) (mEmptySendFrame s)
    (mEmptyReceiveFrame s) (mSendFrameIter s) (mSending s)
    (mHandlingRxFrame s) b.

(** ** Member functions as state transformers

    A member function reads and writes the object and calls out; it is a
    function from the object to a result, the object afterwards and the
    calls it made. *)

Definition M (A : Type) : Type := NcpSpi -> A * NcpSpi * list effect.

Definition ret {A} (a : A) : M A := fun s => (a, s, []).

Definition bind {A B} (c : M A) (k : A -> M B) : M B :=
  fun s =>
    let '(a, s1, e1) := c s in
    let '(b, s2, e2) := k a s1 in
    (b, s2, e1 ++ e2).

Definition gets {A} (f : NcpSpi -> A) : M A := fun s => (f s, s, []).
Definition modify (f : NcpSpi -> NcpSpi) : M unit := fun s => (tt, f s, []).
Definition call (e : effect) : M unit := fun s => (tt, s, [e]).
Definition when (b : bool) (c : M unit) : M unit := if b then c else ret tt.

Notation "x <- c ;; k" := (bind c (fun x => k))
  (at level 90, c at next level, right associativity).
Notation "c ;;; k" := (bind c (fun _ => k))
  (at level 90, right associativity).

Definition result {A} (r : A * NcpSpi * list effect) : A := r.1.1.
Definition after {A} (r : A * NcpSpi * list effect) : NcpSpi := r.1.2.
Definition calls {A} (r : A * NcpSpi * list effect) : list effect := r.2.

(** Write through a pointer to the header of one of the buffers. *)
Definition poke (b : buffer) (f : list Z -> list Z) : M unit :=
  modify (fun s => store b (f (load s b)) s).

Section Transport.

(** Modelled from the spec: the sizes of the two full-size buffers are fixed
    at build time in ncp/ncp_spi.hpp, which is not part of the sources at
    hand; [sizeof_mSendFrame] is [sizeof(mSendFrame)] and
    [sizeof_mReceiveFrame] is [sizeof(mReceiveFrame)].  The constructor
    applies [sizeof] to the constant [SPI_HEADER_LENGTH] itself, which is
    the size of the constant's type, [sizeof_SPI_HEADER_LENGTH]. *)
Variable sizeof_mSendFrame : Z.
Variable sizeof_mReceiveFrame : Z.
Variable sizeof_SPI_HEADER_LENGTH : Z.

(** Modelled from the spec: [sizeof(mEmptyReceiveFrame)]; the declaration is
    in ncp/ncp_spi.hpp, and the empty receive buffer is a header-only
    buffer. *)
Definition sizeof_mEmptyReceiveFrame : Z := SPI_HEADER_LENGTH.

(** Pointers into [mSendFrame] are offsets from its start, so
    [mSendFrame + SPI_HEADER_LENGTH] is the offset [SPI_HEADER_LENGTH]. *)
Definition OutboundFrameSize : M Z :=
  iter <- gets mSendFrameIter ;;
  ret (u16 (iter - SPI_HEADER_LENGTH)).

Definition OutboundFrameGetRemaining : M Z :=
  size <- OutboundFrameSize ;;
  ret (u16 ((sizeof_mSendFrame - SPI_HEADER_LENGTH) - size)).

Definition OutboundFrameBegin : M ThreadError :=
  sending <- gets mSending ;;
  if sending : bool
  then ret kThreadError_Busy
  else modify (set_mSendFrameIter SPI_HEADER_LENGTH) ;;;
       ret kThreadError_None.

(** [memcpy(mSendFrameIter, src, n)]: the first [n] bytes of [src] replace
    the bytes of [mSendFrame] from the cursor on.  The functions that call
    it have checked that they fit when the cursor is in the payload
    area. *)
Definition memcpy_at_iter (src : list Z) (n : Z) : M unit :=
  iter <- gets mSendFrameIter ;;
  poke SendFrame (list_inserts (Z.to_nat iter) (take (Z.to_nat n) src)).

Definition OutboundFrameFeedData (frame : list Z) (frameLength : Z)
  : M ThreadError :=
  maxOutLength <- OutboundFrameGetRemaining ;;
  if maxOutLength <? frameLength
  then ret kThreadError_Failed
  else memcpy_at_iter frame frameLength ;;;
       iter <- gets mSendFrameIter ;;
       modify (set_mSendFrameIter (iter + frameLength)) ;;;
       ret kThreadError_None.

(** Modelled from the spec: the class [Message] is not part of the sources
    at hand.  A message is the sequence of its bytes: [GetLength] is their
    number, as a [uint16_t], and [Read(0, n, dst)] copies the first [n] of
    them to [dst]. *)
Definition Message : Type := list Z.
Definition GetLength (message : Message) : Z := u16 (Z.of_nat (length message)).

Definition OutboundFrameFeedMessage (message : Message) : M ThreadError :=
  maxOutLength <- OutboundFrameGetRemaining ;;
  let frameLength := GetLength message in
  if maxOutLength <? frameLength
  then ret kThreadError_Failed
  else memcpy_at_iter message frameLength ;;;
       iter <- gets mSendFrameIter ;;
       modify (set_mSendFrameIter (iter + frameLength)) ;;;
       ret kThreadError_None.

(** [otPlatSpiSlavePrepareTransaction]: the call is recorded; what the
    driver answers is not decided by the transport, so it is an argument. *)
Definition otPlatSpiSlavePrepareTransaction
  (t : transaction) (answer : ThreadError) : M ThreadError :=
  call (SpiSlavePrepareTransaction t) ;;;
  ret answer.

Definition OutboundFrameSend (answer : ThreadError) : M ThreadError :=
  frameLength <- OutboundFrameSize ;;
  poke SendFrame (fun h => spi_header_set_data_len h frameLength) ;;;
  (* Half-duplex to avoid race condition. *)
  poke SendFrame (fun h => spi_header_set_accept_len h 0) ;;;
  modify (set_mSending true) ;;;
  errorCode <- otPlatSpiSlavePrepareTransaction
    (Transaction SendFrame (u16 (frameLength + SPI_HEADER_LENGTH))
       EmptyReceiveFrame sizeof_mEmptyReceiveFrame true) answer ;;
  if decide (errorCode = kThreadError_Busy)
  then ret kThreadError_None
  else ret errorCode.

Definition HandleSendDone : M unit :=
  modify (set_mSending false) ;;;
  modify (set_mHandlingSendDone false) ;;;
  call HandleSpaceAvailableInTxBuffer.

Definition HandleRxFrame : M unit :=
  frame <- gets mReceiveFrame ;;
  let rx_data_len := spi_header_get_data_len frame in
  call (HandleReceive ReceiveFrame SPI_HEADER_LENGTH rx_data_len) ;;;
  modify (set_mHandlingRxFrame false).

(** [memset(p, 0, n)] on one of the buffers.  A count past the end of the
    array would reach the members that follow it, which is not followed
    here. *)
Definition memset0 (b : buffer) (n : Z) : M unit :=
  poke b (list_inserts 0 (replicate (Z.to_nat n) 0)).

(** [NcpSpi::NcpSpi()].  The object is built in place over raw storage
    ([otNcpInit] uses placement new), so the constructor is a transformer of
    the storage it finds: a member it does not assign keeps what was
    there. *)
Definition NcpSpi_ctor : M unit :=
  memset0 EmptySendFrame sizeof_SPI_HEADER_LENGTH ;;;
  memset0 SendFrame sizeof_SPI_HEADER_LENGTH ;;;
  modify (set_mSending false) ;;;
  poke SendFrame (fun h => spi_header_set_flag_byte h SPI_RESET_FLAG) ;;;
  poke EmptySendFrame (fun h => spi_header_set_flag_byte h SPI_RESET_FLAG) ;;;
  poke SendFrame
    (fun h => spi_header_set_accept_len h
                (sizeof_mReceiveFrame - SPI_HEADER_LENGTH)) ;;;
  call SpiSlaveEnable ;;;
  call (SpiSlavePrepareTransaction
          (Transaction EmptySendFrame (u16 SPI_HEADER_LENGTH)
             EmptyReceiveFrame (u16 SPI_HEADER_LENGTH) true)).

(** The arguments of the completion callback.  The static function of the
    same name, which the driver calls, passes [anOutputBuf],
    [anOutputBufLen], [anInputBuf] and [anInputBufLen] on as [aMISOBuf],
    [aMISOBufLen], [aMOSIBuf] and [aMOSIBufLen]: the MISO side is what this
    side transmitted, the MOSI side what it received. *)
Record completion : Set := Completion {
  aMISOBuf : buffer;
  aMISOBufLen : Z;
  aMOSIBuf : buffer;
  aMOSIBufLen : Z;
  aTransactionLength : Z
}.

(** The four locals of [SpiTransactionComplete] (lines 141 to 158): they
    start at zero and are read from the two headers only when the
    transaction and the buffer in question hold a whole header. *)
Record lengths : Set := Lengths {
  rx_data_len : Z;
  rx_accept_len : Z;
  tx_data_len : Z;
  tx_accept_len : Z
}.

Definition header_lengths (s : NcpSpi) (c : completion) : lengths :=
  let l := Lengths 0 0 0 0 in
  if SPI_HEADER_LENGTH <=? aTransactionLength c then
    let l :=
      if SPI_HEADER_LENGTH <=? aMISOBufLen c
      then Lengths (rx_data_len l)
             (spi_header_get_accept_len (load s (aMISOBuf c)))
             (spi_header_get_data_len (load s (aMISOBuf c)))
             (tx_accept_len l)
      else l in
    let l :=
      if SPI_HEADER_LENGTH <=? aMOSIBufLen c
      then Lengths (spi_header_get_data_len (load s (aMOSIBuf c)))
             (rx_accept_len l)
             (tx_data_len l)
             (spi_header_get_accept_len (load s (aMOSIBuf c)))
      else l in
    l
  else l.

(** The two conditions of lines 160 to 163 and 169 to 173. *)
Definition rx_frame_cond (s : NcpSpi) (c : completion) (l : lengths) : bool :=
  negb (mHandlingRxFrame s)
  && (0 <? rx_data_len l)
  && (rx_data_len l <=? aTransactionLength c - SPI_HEADER_LENGTH)
  && (rx_data_len l <=? rx_accept_len l).

Definition send_done_cond (s : NcpSpi) (c : completion) (l : lengths) : bool :=
  mSending s
  && negb (mHandlingSendDone s)
  && (0 <? tx_data_len l)
  && (tx_data_len l <=? aTransactionLength c - SPI_HEADER_LENGTH)
  && (tx_data_len l <=? tx_accept_len l).

Definition SpiTransactionComplete (c : completion) : M unit :=
  s0 <- gets id ;;
  let l := header_lengths s0 c in
  when (SPI_HEADER_LENGTH <=? aTransactionLength c) (
    s <- gets id ;;
    when (rx_frame_cond s c l) (
      modify (set_mHandlingRxFrame true) ;;;
      call (Post mHandleRxFrame)) ;;;
    s <- gets id ;;
    when (send_done_cond s c l) (
      (* Our transmission was successful. *)
      modify (set_mHandlingSendDone true) ;;;
      call (Post mHandleSendDone))) ;;;
  when ((1 <=? aTransactionLength c) && (1 <=? aMISOBufLen c)) (
    (* Clear the reset flag *)
    poke SendFrame (fun h => spi_header_set_flag_byte h 0) ;;;
    poke EmptySendFrame (fun h => spi_header_set_flag_byte h 0)) ;;;
  sending <- gets mSending ;;
  handlingSendDone <- gets mHandlingSendDone ;;
  miso <- (if sending && negb handlingSendDone
           then size <- OutboundFrameSize ;;
                ret (SendFrame, u16 (size + SPI_HEADER_LENGTH))
           else ret (EmptySendFrame, u16 SPI_HEADER_LENGTH)) ;;
  handlingRxFrame <- gets mHandlingRxFrame ;;
  mosi <- (if handlingRxFrame : bool
           then poke miso.1 (fun h => spi_header_set_accept_len h 0) ;;;
                ret (EmptyReceiveFrame, u16 SPI_HEADER_LENGTH)
           else poke miso.1
                  (fun h => spi_header_set_accept_len h
                              (sizeof_mReceiveFrame - SPI_HEADER_LENGTH)) ;;;
                ret (ReceiveFrame, u16 sizeof_mReceiveFrame)) ;;
  sending <- gets mSending ;;
  handlingSendDone <- gets mHandlingSendDone ;;
  call (SpiSlavePrepareTransaction
          (Transaction miso.1 miso.2 mosi.1 mosi.2
             (sending && negb handlingSendDone))).

(** ** The transport between its collaborators

    Modelled from the spec: the bus driver (platform/spi-slave.h) and the
    tasklet scheduler are not part of the sources at hand.  The driver holds
    at most one prepared transaction; when the master has run it, the bytes
    received have been written to the front of the input buffer that was
    prepared, and the completion callback is called with the four values
    that were prepared and the length the master clocked.  A prepared
    transaction requested from within the callback replaces the completed
    one.  The scheduler is a queue of posted tasklets, run one at a time
    outside the callback. *)

Record system : Type := System {
  ncp : NcpSpi;
  posted : list tasklet;
  armed : option transaction
}.

Definition absorb (y : system) (e : effect) : system :=
  match e with
  | Post t => System (ncp y) (posted y ++ [t]) (armed y)
  | SpiSlavePrepareTransaction t => System (ncp y) (posted y) (Some t)
  | _ => y
  end.

(** The object as the callback finds it, and the arguments it is given. *)
Definition received_into (t : transaction) (received : list Z) (len : Z)
  (s : NcpSpi) : NcpSpi :=
  let n := Z.to_nat (Z.min (aInputBufLen t) len) in
  store (aInputBuf t)
    (list_inserts 0 (take n received) (load s (aInputBuf t))) s.

Definition completion_of (t : transaction) (len : Z) : completion :=
  Completion (aOutputBuf t) (aOutputBufLen t)
    (aInputBuf t) (aInputBufLen t) len.

Definition callback (received : list Z) (len : Z) (y : system)
  : option (unit * NcpSpi * list effect) :=
  match armed y with
  | None => None
  | Some t =>
      Some (SpiTransactionComplete (completion_of t len)
              (received_into t received len (ncp y)))
  end.

Inductive event : Type :=
| TransactionDone (received : list Z) (aTransactionLength : Z)
| RunTasklet
| CallOutboundFrameBegin.

Definition run_tasklet (t : tasklet) : M unit :=
  match t with
  | mHandleRxFrame => HandleRxFrame
  | mHandleSendDone => HandleSendDone
  end.

Definition step (y : system) (e : event) : system :=
  match e with
  | TransactionDone received len =>
      match callback received len y with
      | None => y
      | Some r => foldl absorb (System (after r) (posted y) None) (calls r)
      end
  | RunTasklet =>
      match posted y with
      | [] => y
      | t :: rest => System (after (run_tasklet t (ncp y))) rest (armed y)
      end
  | CallOutboundFrameBegin =>
      System (after (OutboundFrameBegin (ncp y))) (posted y) (armed y)
  end.

Definition run (evs : list event) (y : system) : system := foldl step y evs.

(** The upper layer calls [OutboundFrameSend]; the driver takes the new
    transaction exactly when it answers [kThreadError_None]. *)
Definition call_OutboundFrameSend (answer : ThreadError) (y : system)
  : system :=
  let r := OutboundFrameSend answer (ncp y) in
  System (after r) (posted y)
    (if decide (answer = kThreadError_None)
     then Some (Transaction SendFrame
                  (u16 (result (OutboundFrameSize (ncp y)) + SPI_HEADER_LENGTH))
                  EmptyReceiveFrame sizeof_mEmptyReceiveFrame true)
     else armed y).

(** ** Well-formed objects *)

(** The arrays have the sizes of their declarations. *)
Definition sized (s : NcpSpi) : Prop :=
  Z.of_nat (length (mSendFrame s)) = sizeof_mSendFrame
  /\ Z.of_nat (length (mReceiveFrame s)) = sizeof_mReceiveFrame
  /\ Z.of_nat (length (mEmptySendFrame s)) = SPI_HEADER_LENGTH
  /\ Z.of_nat (length (mEmptyReceiveFrame s)) = SPI_HEADER_LENGTH.

(** The write cursor points into the payload area of [mSendFrame], where
    [OutboundFrameBegin] and the two feeding functions leave it. *)
Definition cursor_ok (s : NcpSpi) : Prop :=
  SPI_HEADER_LENGTH <= mSendFrameIter s <= sizeof_mSendFrame.

(** The bytes staged so far and the payload capacity of [mSendFrame]. *)
Definition staged (s : NcpSpi) : Z := mSendFrameIter s - SPI_HEADER_LENGTH.
Definition payload_capacity : Z := sizeof_mSendFrame - SPI_HEADER_LENGTH.

(** The bytes of a buffer that a pointer and a length denote. *)
Definition view (s : NcpSpi) (b : buffer) (offset len : Z) : list Z :=
  take (Z.to_nat len) (drop (Z.to_nat offset) (load s b)).

(** The reset flag of a header. *)
Definition reset_flag_set (header : list Z) : bool :=
  Z.testbit (spi_header_get_flag_byte header) 7.

(** The flag bytes of the headers of the two send buffers. *)
Definition flag_bytes (s : NcpSpi) : Z * Z :=
  (spi_header_get_flag_byte (mSendFrame s),
   spi_header_get_flag_byte (mEmptySendFrame s)).

(** The output side of a prepared transaction is one of the two send
    buffers and its input side one of the two receive buffers. *)
Definition outbound (b : buffer) : bool :=
  match b with SendFrame | EmptySendFrame => true | _ => false end.

Definition inbound (b : buffer) : bool :=
  match b with ReceiveFrame | EmptyReceiveFrame => true | _ => false end.

Definition armed_ok (y : system) : bool :=
  match armed y with
  | None => true
  | Some t => outbound (aOutputBuf t) && inbound (aInputBuf t)
  end.

(** The tasklets posted and the transactions prepared among the calls of a
    run, in order. *)
Definition posts (es : list effect) : list tasklet :=
  omap (fun e => match e with Post t => Some t | _ => None end) es.

Definition prepared (es : list effect) : list transaction :=
  omap (fun e => match e with
                 | SpiSlavePrepareTransaction t => Some t
                 | _ => None
                 end) es.

(** The transport with an outbound frame of no payload in flight: a send
    is outstanding, no completion of it is pending, and the data-length
    field of both send buffers is zero. *)
Definition empty_frame_in_flight (y : system) : Prop :=
  mSending (ncp y) = true
  /\ mHandlingSendDone (ncp y) = false
  /\ (mHandleSendDone ∉ posted y)
  /\ spi_header_get_data_len (mSendFrame (ncp y)) = 0
  /\ spi_header_get_data_len (mEmptySendFrame (ncp y)) = 0
  /\ armed_ok y = true.

(** What one run of the completion handler decides, as functions of the
    object it finds and of its arguments; the lemmas of the next section
    relate them to the run itself. *)
Definition detects_rx_frame (s : NcpSpi) (c : completion) : bool :=
  (SPI_HEADER_LENGTH <=? aTransactionLength c)
  && rx_frame_cond s c (header_lengths s c).

Definition detects_send_done (s : NcpSpi) (c : completion) : bool :=
  (SPI_HEADER_LENGTH <=? aTransactionLength c)
  && send_done_cond s c (header_lengths s c).

Definition clears_reset_flag (c : completion) : bool :=
  (1 <=? aTransactionLength c) && (1 <=? aMISOBufLen c).

(** ** The users of the interface

    Modelled from the spec: the upper layer that assembles frames is not
    part of the sources at hand.  What may happen to the transport besides
    the events above: the upper layer feeds bytes or a message into the
    frame it is assembling, or sends it.  A feed passes the number of bytes
    of its source as the length. *)
Inductive action : Type :=
| Driven (e : event)
| CallOutboundFrameFeedData (frame : list Z)
| CallOutboundFrameFeedMessage (message : Message)
| CallOutboundFrameSend (answer : ThreadError).

Definition act (y : system) (a : action) : system :=
  match a with
  | Driven e => step y e
  | CallOutboundFrameFeedData frame =>
      System
        (after (OutboundFrameFeedData frame (Z.of_nat (length frame)) (ncp y)))
        (posted y) (armed y)
  | CallOutboundFrameFeedMessage message =>
      System (after (OutboundFrameFeedMessage message (ncp y)))
        (posted y) (armed y)
  | CallOutboundFrameSend answer => call_OutboundFrameSend answer y
  end.

Definition play (acts : list action) (y : system) : system :=
  foldl act y acts.

(** No tasklet is run by the action. *)
Definition defers (a : action) : bool :=
  match a with Driven RunTasklet => false | _ => true end.

(** The feeds of one frame, chunk after chunk, with the answer to each. *)
Fixpoint feed_chunks (chunks : list (list Z)) : M (list ThreadError) :=
  match chunks with
  | [] => ret []
  | frame :: rest =>
      e <- OutboundFrameFeedData frame (Z.of_nat (length frame)) ;;
      es <- feed_chunks rest ;;
      ret (e :: es)
  end.

(** One frame from beginning to sending. *)
Definition send_frame (chunks : list (list Z)) (answer : ThreadError)
  : M (ThreadError * list ThreadError * ThreadError) :=
  b <- OutboundFrameBegin ;;
  es <- feed_chunks chunks ;;
  e <- OutboundFrameSend answer ;;
  ret (b, es, e).

(** Every byte of the header is a byte. *)
Definition header_bytes_ok (header : list Z) : Prop :=
  Forall (fun b => 0 <= b < 256) (take 5 header).

(** Each pending flag is set exactly when its tasklet is in the queue, and
    then it is there once. *)
Definition posted_once (y : system) : Prop :=
  count_occ tasklet_eq_dec (posted y) mHandleRxFrame
  = (if mHandlingRxFrame (ncp y) then 1 else 0)%nat
  /\ count_occ tasklet_eq_dec (posted y) mHandleSendDone
     = (if mHandlingSendDone (ncp y) then 1 else 0)%nat.

(** A frame received and not yet delivered: the receive is pending and no
    prepared transaction has the receive buffer as its input. *)
Definition frame_held (y : system) : Prop :=
  mHandlingRxFrame (ncp y) = true
  /\ match armed y with
     | None => True
     | Some t => aInputBuf t = EmptyReceiveFrame
     end.

(** A transaction stays inside the buffers it names: the two lengths handed
    to the driver do not exceed the arrays. *)
Definition fits (s : NcpSpi) (t : transaction) : Prop :=
  0 <= aOutputBufLen t <= Z.of_nat (length (load s (aOutputBuf t)))
  /\ 0 <= aInputBufLen t <= Z.of_nat (length (load s (aInputBuf t))).

Definition armed_fits (y : system) : Prop :=
  match armed y with
  | None => True
  | Some t => fits (ncp y) t
  end.

(** ** Objects of the examples

    Buffers of 69 bytes, that is 64 bytes of payload: storage that is all
    zero, as static storage is at start-up (also with buffers of 300
    bytes); storage every byte of which is 0xFF; the object between frames,
    with the write cursor just past the header; and the object the
    constructor leaves over zeroed storage. *)

Definition zeroed_storage : NcpSpi :=
  mkNcpSpi (replicate 69 0) (replicate 69 0) (replicate 5 0) (replicate 5 0)
    0 false false false.

Definition zeroed_storage_300 : NcpSpi :=
  mkNcpSpi (replicate 300 0) (replicate 300 0) (replicate 5 0)
    (replicate 5 0) 0 false false false.

Definition used_storage : NcpSpi :=
  mkNcpSpi (replicate 69 0xFF) (replicate 69 0xFF)
    (replicate 5 0xFF) (replicate 5 0xFF) 5 true false false.

Definition idle_object : NcpSpi :=
  mkNcpSpi (replicate 69 0) (replicate 69 0) (replicate 5 0) (replicate 5 0)
    5 false false false.

Definition fresh_object : NcpSpi :=
  mkNcpSpi ([0x80; 64; 0; 0; 0] ++ replicate 64 0) (replicate 69 0)
    [0x80; 0; 0; 0; 0] (replicate 5 0) 5 false false false.

(** The object with 30 bytes of payload staged and not yet sent, and the
    same once [OutboundFrameSend] has run. *)
Definition staged_object : NcpSpi :=
  mkNcpSpi ([0; 64; 0; 0; 0] ++ replicate 30 7 ++ replicate 34 0)
    (replicate 69 0) [0; 64; 0; 0; 0] (replicate 5 0) 35 false false false.

Definition in_flight_object : NcpSpi :=
  mkNcpSpi ([0; 0; 0; 30; 0] ++ replicate 30 7 ++ replicate 34 0)
    (replicate 69 0) [0; 64; 0; 0; 0] (replicate 5 0) 35 true false false.

(** Completed transactions: the first one after construction, five bytes
    long; one whose output side held no byte; one whose input side held no
    byte; and one that carried the send buffer of [in_flight_object] while
    the master accepted nothing. *)
Definition header_exchange : completion :=
  Completion EmptySendFrame 5 EmptyReceiveFrame 5 5.

Definition no_output_exchange : completion :=
  Completion EmptySendFrame 0 EmptyReceiveFrame 5 5.

Definition no_input_exchange : completion :=
  Completion EmptySendFrame 5 EmptyReceiveFrame 0 5.

Definition refused_exchange : completion :=
  Completion SendFrame 35 EmptyReceiveFrame 5 35.

(** The transport right after construction, and a history that follows a
    send: two transactions, the second bringing a frame of three bytes from
    the master, the receive tasklet, and an attempt to begin a frame. *)
Definition fresh_system : system :=
  System fresh_object []
    (Some (Transaction EmptySendFrame 5 EmptyReceiveFrame 5 true)).

Definition some_history : list event :=
  [TransactionDone [0; 64; 0; 0; 0] 5;
   TransactionDone [0; 64; 0; 3; 0; 1; 2; 3] 8;
   RunTasklet;
   CallOutboundFrameBegin;
   TransactionDone [0; 64; 0; 0; 0] 69].

(** The transport once the first transaction is over, listening with the
    whole receive buffer; the same with 30 bytes of payload staged; a frame
    of three bytes from the master; and two histories, the second of which
    runs no tasklet. *)
Definition listening_object : NcpSpi :=
  mkNcpSpi ([0; 64; 0; 0; 0] ++ replicate 64 0) (replicate 69 0)
    [0; 64; 0; 0; 0] (replicate 5 0) 5 false false false.

Definition listening_system : system :=
  System listening_object []
    (Some (Transaction EmptySendFrame 5 ReceiveFrame 69 false)).

Definition staged_system : system :=
  System staged_object []
    (Some (Transaction EmptySendFrame 5 ReceiveFrame 69 false)).

Definition master_frame : list Z := [0; 64; 0; 3; 0; 1; 2; 3].

Definition some_actions : list action :=
  [Driven (TransactionDone master_frame 8);
   CallOutboundFrameFeedData (replicate 30 7);
   CallOutboundFrameSend kThreadError_None;
   Driven (TransactionDone [0; 64; 0; 0; 0] 35);
   Driven RunTasklet;
   Driven RunTasklet;
   Driven CallOutboundFrameBegin;
   CallOutboundFrameFeedMessage (replicate 100 1)].

Definition deferring_actions : list action :=
  [Driven (TransactionDone [0; 64; 0; 2; 0; 9; 9] 7);
   CallOutboundFrameFeedData [1; 2];
   CallOutboundFrameSend kThreadError_None;
   Driven (TransactionDone [0; 64; 0; 2; 0; 8; 8] 7);
   Driven CallOutboundFrameBegin].

(** ** Proof automation *)

(** Unfolding of the operations on state transformers. *)
Ltac unfold_m :=
  cbv [bind when gets modify call ret poke calls after result id].

(** Reduction of the projections of an object that is given by its
    fields. *)
Ltac fields :=
  cbn [load store id fst snd
       mSendFrame mReceiveFrame mEmptySendFrame mEmptyReceiveFrame
       mSendFrameIter mSending mHandlingRxFrame mHandlingSendDone
       set_mSendFrameIter set_mSending set_mHandlingRxFrame
       set_mHandlingSendDone andb orb negb] in *.

(** * Properties *)

(** ** The header codec *)

Lemma byte_at_insert_eq (h : list Z) (i : nat) (v : Z) :
  (i < length h)%nat -> byte_at (<[i := v]> h) i = v.
Proof. intros H. unfold byte_at. by rewrite list_lookup_insert_eq. Qed.

Lemma byte_at_insert_ne (h : list Z) (i j : nat) (v : Z) :
  i <> j -> byte_at (<[i := v]> h) j = byte_at h j.
Proof. intros H. unfold byte_at. by rewrite list_lookup_insert_ne. Qed.

Lemma byte_at_inserts_lt (l k : list Z) (i j : nat) :
  (j < i)%nat -> byte_at (list_inserts i k l) j = byte_at l j.
Proof. intros H. unfold byte_at. by rewrite list_lookup_inserts_lt. Qed.

Lemma u16_range x : 0 <= u16 x < 65536.
Proof. unfold u16. apply Z.mod_pos_bound. lia. Qed.

Lemma u16_small x : 0 <= x < 65536 -> u16 x = x.
Proof. intros H. unfold u16. apply Z.mod_small. lia. Qed.

Lemma low_high_join x :
  0 <= x < 65536 ->
  Z.land (Z.shiftr x 0) 255 + Z.shiftl (Z.land (Z.shiftr x 8) 255) 8 = x.
Proof.
  intros H.
  rewrite Z.shiftr_0_r.
  change 255 with (Z.ones 8).
  rewrite !Z.land_ones by lia.
  rewrite Z.shiftr_div_pow2, Z.shiftl_mul_pow2 by lia.
  change (2 ^ 8) with 256.
  rewrite (Z.mod_small (x / 256))
    by (split; [apply Z.div_pos; lia | apply Z.div_lt_upper_bound; lia]).
  pose proof (Z.div_mod x 256). lia.
Qed.

Lemma length_set_flag_byte h v :
  length (spi_header_set_flag_byte h v) = length h.
Proof. unfold spi_header_set_flag_byte. by rewrite length_insert. Qed.

Lemma length_set_accept_len h len :
  length (spi_header_set_accept_len h len) = length h.
Proof. unfold spi_header_set_accept_len. cbv zeta. by rewrite !length_insert. Qed.

Lemma length_set_data_len h len :
  length (spi_header_set_data_len h len) = length h.
Proof. unfold spi_header_set_data_len. cbv zeta. by rewrite !length_insert. Qed.

Lemma get_set_data_len h len :
  (5 <= length h)%nat ->
  spi_header_get_data_len (spi_header_set_data_len h len) = u16 len.
Proof.
  intros H. unfold spi_header_get_data_len, spi_header_set_data_len.
  cbv zeta.
  rewrite byte_at_insert_eq by (rewrite length_insert; lia).
  rewrite byte_at_insert_ne by lia.
  rewrite byte_at_insert_eq by lia.
  rewrite low_high_join by apply u16_range.
  apply u16_small, u16_range.
Qed.

Lemma get_set_accept_len h len :
  (3 <= length h)%nat ->
  spi_header_get_accept_len (spi_header_set_accept_len h len) = u16 len.
Proof.
  intros H. unfold spi_header_get_accept_len, spi_header_set_accept_len.
  cbv zeta.
  rewrite byte_at_insert_eq by (rewrite length_insert; lia).
  rewrite byte_at_insert_ne by lia.
  rewrite byte_at_insert_eq by lia.
  rewrite low_high_join by apply u16_range.
  apply u16_small, u16_range.
Qed.

Lemma get_flag_set_flag h v :
  (1 <= length h)%nat ->
  spi_header_get_flag_byte (spi_header_set_flag_byte h v) = u8 v.
Proof.
  intros H. unfold spi_header_get_flag_byte, spi_header_set_flag_byte.
  by rewrite byte_at_insert_eq by lia.
Qed.

Lemma get_data_len_set_accept_len h len :
  spi_header_get_data_len (spi_header_set_accept_len h len)
  = spi_header_get_data_len h.
Proof.
  unfold spi_header_get_data_len, spi_header_set_accept_len. cbv zeta.
  by rewrite !byte_at_insert_ne by lia.
Qed.

Lemma get_data_len_set_flag_byte h v :
  spi_header_get_data_len (spi_header_set_flag_byte h v)
  = spi_header_get_data_len h.
Proof.
  unfold spi_header_get_data_len, spi_header_set_flag_byte.
  by rewrite !byte_at_insert_ne by lia.
Qed.

Lemma get_accept_len_set_data_len h len :
  spi_header_get_accept_len (spi_header_set_data_len h len)
  = spi_header_get_accept_len h.
Proof.
  unfold spi_header_get_accept_len, spi_header_set_data_len. cbv zeta.
  by rewrite !byte_at_insert_ne by lia.
Qed.

Lemma get_accept_len_set_flag_byte h v :
  spi_header_get_accept_len (spi_header_set_flag_byte h v)
  = spi_header_get_accept_len h.
Proof.
  unfold spi_header_get_accept_len, spi_header_set_flag_byte.
  by rewrite !byte_at_insert_ne by lia.
Qed.

Lemma get_flag_set_accept_len h len :
  spi_header_get_flag_byte (spi_header_set_accept_len h len)
  = spi_header_get_flag_byte h.
Proof.
  unfold spi_header_get_flag_byte, spi_header_set_accept_len. cbv zeta.
  by rewrite !byte_at_insert_ne by lia.
Qed.

Lemma get_flag_set_data_len h len :
  spi_header_get_flag_byte (spi_header_set_data_len h len)
  = spi_header_get_flag_byte h.
Proof.
  unfold spi_header_get_flag_byte, spi_header_set_data_len. cbv zeta.
  by rewrite !byte_at_insert_ne by lia.
Qed.

Lemma view_inserts (l k : list Z) (i : nat) :
  (i + length k <= length l)%nat ->
  take (length k) (drop i (list_inserts i k l)) = k.
Proof.
  intros H. apply list_eq. intros j.
  destruct (decide (j < length k)%nat) as [Hj | Hj].
  - rewrite lookup_take_lt, lookup_drop by lia.
    rewrite list_lookup_inserts by lia. f_equal. lia.
  - rewrite lookup_take_ge by lia. symmetry. apply lookup_ge_None. lia.
Qed.

(** ** Runs of the member functions in closed form *)

Lemma send_done_cond_rx b s c l :
  send_done_cond (set_mHandlingRxFrame b s) c l = send_done_cond s c l.
Proof. reflexivity. Qed.

Lemma SpiTransactionComplete_run s c :
  let rx := detects_rx_frame s c in
  let sd := detects_send_done s c in
  let s1 := (if sd then set_mHandlingSendDone true else id)
              ((if rx then set_mHandlingRxFrame true else id) s) in
  let s2 := if clears_reset_flag c
            then store EmptySendFrame
                   (spi_header_set_flag_byte (mEmptySendFrame s1) 0)
                   (store SendFrame
                      (spi_header_set_flag_byte (mSendFrame s1) 0) s1)
            else s1 in
  let more := mSending s2 && negb (mHandlingSendDone s2) in
  let out := if more
             then (SendFrame,
                   u16 (u16 (mSendFrameIter s2 - SPI_HEADER_LENGTH)
                        + SPI_HEADER_LENGTH))
             else (EmptySendFrame, u16 SPI_HEADER_LENGTH) in
  let inp := if mHandlingRxFrame s2
             then (EmptyReceiveFrame, u16 SPI_HEADER_LENGTH, 0)
             else (ReceiveFrame, u16 sizeof_mReceiveFrame,
                   sizeof_mReceiveFrame - SPI_HEADER_LENGTH) in
  let s3 := store out.1
              (spi_header_set_accept_len (load s2 out.1) inp.2) s2 in
  SpiTransactionComplete c s
  = (tt, s3,
     (if rx then [Post mHandleRxFrame] else [])
     ++ (if sd then [Post mHandleSendDone] else [])
     ++ [SpiSlavePrepareTransaction
           (Transaction out.1 out.2 inp.1.1 inp.1.2 more)]).
Proof.
  unfold detects_rx_frame, detects_send_done, clears_reset_flag.
  unfold SpiTransactionComplete, OutboundFrameSize. unfold_m.
  destruct (SPI_HEADER_LENGTH <=? aTransactionLength c); cbn [andb].
  - destruct (rx_frame_cond s c (header_lengths s c)); cbv beta iota;
      rewrite ?send_done_cond_rx;
      destruct (send_done_cond s c (header_lengths s c)); cbv beta iota;
      destruct ((1 <=? aTransactionLength c) && (1 <=? aMISOBufLen c));
      cbv beta iota zeta;
      destruct s as [sf rf esf erf it [] [] []]; reflexivity.
  - destruct ((1 <=? aTransactionLength c) && (1 <=? aMISOBufLen c));
      cbv beta iota zeta;
      destruct s as [sf rf esf erf it [] [] []]; reflexivity.
Qed.

Lemma OutboundFrameSend_run answer s :
  let frameLength := u16 (mSendFrameIter s - SPI_HEADER_LENGTH) in
  OutboundFrameSend answer s
  = (if decide (answer = kThreadError_Busy)
     then kThreadError_None else answer,
     set_mSending true
       (store SendFrame
          (spi_header_set_accept_len
             (spi_header_set_data_len (mSendFrame s) frameLength) 0) s),
     [SpiSlavePrepareTransaction
        (Transaction SendFrame (u16 (frameLength + SPI_HEADER_LENGTH))
           EmptyReceiveFrame SPI_HEADER_LENGTH true)]).
Proof. destruct answer; reflexivity. Qed.

Lemma HandleRxFrame_run s :
  HandleRxFrame s
  = (tt, set_mHandlingRxFrame false s,
     [HandleReceive ReceiveFrame SPI_HEADER_LENGTH
        (spi_header_get_data_len (mReceiveFrame s))]).
Proof. reflexivity. Qed.

Lemma HandleSendDone_run s :
  HandleSendDone s
  = (tt, set_mHandlingSendDone false (set_mSending false s),
     [HandleSpaceAvailableInTxBuffer]).
Proof. reflexivity. Qed.

Lemma NcpSpi_ctor_run raw :
  let zeros := replicate (Z.to_nat sizeof_SPI_HEADER_LENGTH) 0 in
  NcpSpi_ctor raw
  = (tt,
     set_mSending false
       (store EmptySendFrame
          (spi_header_set_flag_byte
             (list_inserts 0 zeros (mEmptySendFrame raw)) SPI_RESET_FLAG)
          (store SendFrame
             (spi_header_set_accept_len
                (spi_header_set_flag_byte
                   (list_inserts 0 zeros (mSendFrame raw)) SPI_RESET_FLAG)
                (sizeof_mReceiveFrame - SPI_HEADER_LENGTH)) raw)),
     [SpiSlaveEnable;
      SpiSlavePrepareTransaction
        (Transaction EmptySendFrame SPI_HEADER_LENGTH
           EmptyReceiveFrame SPI_HEADER_LENGTH true)]).
Proof. reflexivity. Qed.

Lemma OutboundFrameFeedMessage_as_data message s :
  OutboundFrameFeedMessage message s
  = OutboundFrameFeedData message (GetLength message) s.
Proof. reflexivity. Qed.

(** ** Beginning a frame *)

(** C9: [OutboundFrameBegin] answers Busy exactly when a send is
    outstanding, and then leaves the object, the write cursor included, as
    it was; otherwise it answers None (Ok) and puts the write cursor just
    past the five-byte header of the send buffer.  It calls nothing. *)
Theorem OutboundFrameBegin_busy_iff_sending s :
  let r := OutboundFrameBegin s in
  (result r = kThreadError_Busy <-> mSending s = true)
  /\ (mSending s = true ->
        after r = s /\ mSendFrameIter (after r) = mSendFrameIter s)
  /\ (mSending s = false ->
        result r = kThreadError_None
        /\ mSendFrameIter (after r) = SPI_HEADER_LENGTH
        /\ after r = set_mSendFrameIter SPI_HEADER_LENGTH s)
  /\ calls r = [].
Proof.
  unfold OutboundFrameBegin. unfold_m.
  destruct (mSending s); cbn; repeat split; intros; congruence.
Qed.

(** ** The completion handler: what it detects *)

Lemma header_lengths_short s c :
  aTransactionLength c < SPI_HEADER_LENGTH ->
  header_lengths s c = Lengths 0 0 0 0.
Proof.
  intros H. unfold header_lengths.
  by rewrite (proj2 (Z.leb_gt _ _) H).
Qed.

Lemma detects_rx_frame_iff s c :
  let l := header_lengths s c in
  detects_rx_frame s c = true
  <-> mHandlingRxFrame s = false
      /\ 0 < rx_data_len l
      /\ rx_data_len l <= aTransactionLength c - SPI_HEADER_LENGTH
      /\ rx_data_len l <= rx_accept_len l.
Proof.
  cbv zeta. unfold detects_rx_frame, rx_frame_cond.
  destruct (Z.leb_spec SPI_HEADER_LENGTH (aTransactionLength c)) as [Ht | Ht].
  - rewrite !andb_true_iff, negb_true_iff, Z.ltb_lt, !Z.leb_le. tauto.
  - rewrite header_lengths_short by done. cbn. split; [done | lia].
Qed.

Lemma detects_send_done_iff s c :
  let l := header_lengths s c in
  detects_send_done s c = true
  <-> mSending s = true
      /\ mHandlingSendDone s = false
      /\ 0 < tx_data_len l
      /\ tx_data_len l <= aTransactionLength c - SPI_HEADER_LENGTH
      /\ tx_data_len l <= tx_accept_len l.
Proof.
  cbv zeta. unfold detects_send_done, send_done_cond.
  destruct (Z.leb_spec SPI_HEADER_LENGTH (aTransactionLength c)) as [Ht | Ht].
  - rewrite !andb_true_iff, negb_true_iff, Z.ltb_lt, !Z.leb_le. tauto.
  - rewrite header_lengths_short by done. cbn. split; [done | lia].
Qed.

Lemma handler_posts_rx s c :
  Post mHandleRxFrame ∈ calls (SpiTransactionComplete c s)
  <-> detects_rx_frame s c = true.
Proof.
  rewrite SpiTransactionComplete_run. cbn [calls snd].
  destruct (detects_rx_frame s c), (detects_send_done s c); cbn;
    rewrite ?elem_of_cons, ?elem_of_nil; split; intros H;
    try done; try tauto.
  all: destruct H as [H | H]; try done; destruct H as [H | H]; done.
Qed.

Lemma handler_posts_send_done s c :
  Post mHandleSendDone ∈ calls (SpiTransactionComplete c s)
  <-> detects_send_done s c = true.
Proof.
  rewrite SpiTransactionComplete_run. cbn [calls snd].
  destruct (detects_rx_frame s c), (detects_send_done s c); cbn;
    rewrite ?elem_of_cons, ?elem_of_nil; split; intros H;
    try done; try tauto.
  all: destruct H as [H | H]; try done; destruct H as [H | H]; done.
Qed.

Lemma handler_posts s c :
  posts (calls (SpiTransactionComplete c s))
  = (if detects_rx_frame s c then [mHandleRxFrame] else [])
    ++ (if detects_send_done s c then [mHandleSendDone] else []).
Proof.
  rewrite SpiTransactionComplete_run. cbn [calls snd].
  destruct (detects_rx_frame s c), (detects_send_done s c); reflexivity.
Qed.

(** The members the handler leaves alone, and the three flags after it. *)
Lemma handler_frame s c :
  let s' := after (SpiTransactionComplete c s) in
  mReceiveFrame s' = mReceiveFrame s
  /\ mEmptyReceiveFrame s' = mEmptyReceiveFrame s
  /\ mSendFrameIter s' = mSendFrameIter s
  /\ mSending s' = mSending s
  /\ mHandlingRxFrame s' = mHandlingRxFrame s || detects_rx_frame s c
  /\ mHandlingSendDone s' = mHandlingSendDone s || detects_send_done s c.
Proof.
  rewrite SpiTransactionComplete_run. cbn [after fst snd].
  destruct (detects_rx_frame s c), (detects_send_done s c),
    (clears_reset_flag c);
    destruct s as [sf rf esf erf it [] [] []]; cbn; done.
Qed.

(** The transaction the handler prepares, in terms of the object it
    leaves. *)
Lemma handler_prepares s c :
  let r := SpiTransactionComplete c s in
  let s' := after r in
  let more := mSending s' && negb (mHandlingSendDone s') in
  let t := Transaction
             (if more then SendFrame else EmptySendFrame)
             (if more
              then u16 (result (OutboundFrameSize s') + SPI_HEADER_LENGTH)
              else SPI_HEADER_LENGTH)
             (if mHandlingRxFrame s' then EmptyReceiveFrame else ReceiveFrame)
             (if mHandlingRxFrame s'
              then SPI_HEADER_LENGTH else u16 sizeof_mReceiveFrame)
             more in
  prepared (calls r) = [t]
  /\ calls r = (Post <$> posts (calls r)) ++ [SpiSlavePrepareTransaction t].
Proof.
  cbv zeta. rewrite SpiTransactionComplete_run.
  cbn [after calls fst snd].
  destruct (detects_rx_frame s c), (detects_send_done s c),
    (clears_reset_flag c);
    destruct s as [sf rf esf erf it [] [] []]; cbn; done.
Qed.

(** The headers of the two send buffers after the handler: the data-length
    field is never written, the flag byte is zeroed or kept, and the
    accept-length field of the buffer that goes out next is set. *)
Lemma handler_send_headers s c (b : buffer) :
  outbound b = true ->
  let s' := after (SpiTransactionComplete c s) in
  length (load s' b) = length (load s b)
  /\ spi_header_get_data_len (load s' b) = spi_header_get_data_len (load s b)
  /\ spi_header_get_flag_byte (load s' b)
     = spi_header_get_flag_byte
         (if clears_reset_flag c
          then spi_header_set_flag_byte (load s b) 0 else load s b).
Proof.
  intros Hb. cbv zeta. rewrite SpiTransactionComplete_run.
  cbn [after fst snd].
  destruct b; try discriminate;
    destruct (detects_rx_frame s c), (detects_send_done s c),
      (clears_reset_flag c);
    destruct s as [sf rf esf erf it [] [] []]; fields;
    rewrite ?length_set_accept_len, ?length_set_flag_byte,
      ?get_data_len_set_accept_len, ?get_data_len_set_flag_byte,
      ?get_flag_set_accept_len; done.
Qed.

(** C1: a run of the completion handler posts the receive tasklet, having
    set [mHandlingRxFrame], exactly when no receive was pending, the data
    length received is positive, at most the transaction length less the
    five bytes of the header, and at most the accept length in the header
    of the buffer that was transmitted; the lengths are those of the two
    headers whenever the transaction and the buffers hold a header.  The
    receive tasklet calls [HandleReceive] once, with the address just past
    the header of [mReceiveFrame] and the data length declared in that
    header, which is the length received when the transaction was received
    into [mReceiveFrame], and then clears [mHandlingRxFrame]. *)
Theorem receive_event_detection s c :
  let l := header_lengths s c in
  let r := SpiTransactionComplete c s in
  (Post mHandleRxFrame ∈ calls r
   <-> mHandlingRxFrame s = false
       /\ 0 < rx_data_len l
       /\ rx_data_len l <= aTransactionLength c - SPI_HEADER_LENGTH
       /\ rx_data_len l <= rx_accept_len l)
  /\ (Post mHandleRxFrame ∈ calls r ->
        mHandlingRxFrame (after r) = true
        /\ count_occ tasklet_eq_dec (posts (calls r)) mHandleRxFrame = 1%nat)
  /\ (Post mHandleRxFrame ∉ calls r ->
        mHandlingRxFrame (after r) = mHandlingRxFrame s)
  /\ (SPI_HEADER_LENGTH <= aTransactionLength c ->
        (SPI_HEADER_LENGTH <= aMOSIBufLen c ->
           rx_data_len l = spi_header_get_data_len (load s (aMOSIBuf c)))
        /\ (SPI_HEADER_LENGTH <= aMISOBufLen c ->
              rx_accept_len l
              = spi_header_get_accept_len (load s (aMISOBuf c))))
  /\ (forall s',
        let d := HandleRxFrame s' in
        let len := spi_header_get_data_len (mReceiveFrame s') in
        calls d = [HandleReceive ReceiveFrame SPI_HEADER_LENGTH len]
        /\ (SPI_HEADER_LENGTH + len <= Z.of_nat (length (mReceiveFrame s')) ->
              Z.of_nat (length (view s' ReceiveFrame SPI_HEADER_LENGTH len))
              = len)
        /\ after d = set_mHandlingRxFrame false s')
  /\ (Post mHandleRxFrame ∈ calls r -> aMOSIBuf c = ReceiveFrame ->
        calls (HandleRxFrame (after r))
        = [HandleReceive ReceiveFrame SPI_HEADER_LENGTH (rx_data_len l)]).
Proof.
  cbv zeta.
  pose proof (handler_frame s c) as (Hrf & _ & _ & _ & Hrx & _).
  rewrite handler_posts_rx.
  split; [apply detects_rx_frame_iff |].
  split.
  { intros Hd. rewrite Hrx, Hd, orb_true_r. split; [done |].
    rewrite handler_posts, Hd.
    destruct (detects_send_done s c); reflexivity. }
  split.
  { intros Hd. rewrite Hrx. destruct (detects_rx_frame s c); [done |].
    apply orb_false_r. }
  split.
  { intros Ht. unfold header_lengths.
    rewrite (proj2 (Z.leb_le _ _) Ht).
    split; intros Hb; rewrite (proj2 (Z.leb_le _ _) Hb).
    - reflexivity.
    - destruct (SPI_HEADER_LENGTH <=? aMOSIBufLen c); reflexivity. }
  split.
  { intros s'. cbv zeta. split; [reflexivity |]. split; [| reflexivity].
    intros Hfit. unfold view. cbn [load].
    pose proof (u16_range (byte_at (mReceiveFrame s') 3
                           + Z.shiftl (byte_at (mReceiveFrame s') 4) 8)) as Hr.
    fold (spi_header_get_data_len (mReceiveFrame s')) in Hr.
    rewrite length_take, length_drop.
    unfold SPI_HEADER_LENGTH in *. lia. }
  intros Hd Hbuf.
  apply detects_rx_frame_iff in Hd as (_ & Hpos & _).
  rewrite HandleRxFrame_run. cbn [calls snd]. rewrite Hrf.
  revert Hpos. unfold header_lengths.
  destruct (SPI_HEADER_LENGTH <=? aTransactionLength c); [| cbn; lia].
  destruct (SPI_HEADER_LENGTH <=? aMOSIBufLen c).
  - rewrite Hbuf. destruct (SPI_HEADER_LENGTH <=? aMISOBufLen c); reflexivity.
  - destruct (SPI_HEADER_LENGTH <=? aMISOBufLen c); cbn; lia.
Qed.

(** C2: a run of the completion handler posts the send-done tasklet, having
    set [mHandlingSendDone], exactly when a send is outstanding, no send
    completion was pending, the data length in the header of the buffer
    that was transmitted is positive, at most the transaction length less
    the five bytes of the header, and at most the accept length in the
    header received from the master.  While that send-done is pending no
    further run of the handler, whatever its arguments, posts the tasklet
    again; the tasklet itself clears [mSending] and [mHandlingSendDone] and
    tells the upper layer once that there is room. *)
Theorem send_completion_detection s c :
  let l := header_lengths s c in
  let r := SpiTransactionComplete c s in
  (Post mHandleSendDone ∈ calls r
   <-> mSending s = true
       /\ mHandlingSendDone s = false
       /\ 0 < tx_data_len l
       /\ tx_data_len l <= aTransactionLength c - SPI_HEADER_LENGTH
       /\ tx_data_len l <= tx_accept_len l)
  /\ (Post mHandleSendDone ∈ calls r ->
        mHandlingSendDone (after r) = true
        /\ count_occ tasklet_eq_dec (posts (calls r)) mHandleSendDone = 1%nat)
  /\ (Post mHandleSendDone ∉ calls r ->
        mHandlingSendDone (after r) = mHandlingSendDone s)
  /\ (SPI_HEADER_LENGTH <= aTransactionLength c ->
        (SPI_HEADER_LENGTH <= aMISOBufLen c ->
           tx_data_len l = spi_header_get_data_len (load s (aMISOBuf c)))
        /\ (SPI_HEADER_LENGTH <= aMOSIBufLen c ->
              tx_accept_len l
              = spi_header_get_accept_len (load s (aMOSIBuf c))))
  /\ (Post mHandleSendDone ∈ calls r ->
        (Post mHandleSendDone ∉ calls (SpiTransactionComplete c (after r)))
        /\ (forall c',
              Post mHandleSendDone
              ∉ calls (SpiTransactionComplete c' (after r))))
  /\ (forall s',
        let d := HandleSendDone s' in
        mSending (after d) = false
        /\ mHandlingSendDone (after d) = false
        /\ calls d = [HandleSpaceAvailableInTxBuffer]).
Proof.
  cbv zeta.
  pose proof (handler_frame s c) as (_ & _ & _ & _ & _ & Hsd).
  rewrite handler_posts_send_done.
  split; [apply detects_send_done_iff |].
  split.
  { intros Hd. rewrite Hsd, Hd, orb_true_r. split; [done |].
    rewrite handler_posts, Hd.
    destruct (detects_rx_frame s c); reflexivity. }
  split.
  { intros Hd. rewrite Hsd. destruct (detects_send_done s c); [done |].
    apply orb_false_r. }
  split.
  { intros Ht. unfold header_lengths.
    rewrite (proj2 (Z.leb_le _ _) Ht).
    split; intros Hb; rewrite (proj2 (Z.leb_le _ _) Hb).
    - destruct (SPI_HEADER_LENGTH <=? aMOSIBufLen c); reflexivity.
    - reflexivity. }
  split.
  { intros Hd.
    assert (forall c',
      Post mHandleSendDone
      ∉ calls (SpiTransactionComplete c'
                 (after (SpiTransactionComplete c s)))) as Hnext.
    { intros c'. rewrite handler_posts_send_done, detects_send_done_iff.
      rewrite Hsd, Hd, orb_true_r. intros (_ & Hf & _). discriminate. }
    split; [apply Hnext | exact Hnext]. }
  intros s'. rewrite HandleSendDone_run. done.
Qed.

(** ** An outbound frame without payload: the invariant *)

Lemma foldl_absorb_posts (ps : list tasklet) (y : system) :
  foldl absorb y (Post <$> ps) = System (ncp y) (posted y ++ ps) (armed y).
Proof.
  revert y. induction ps as [| p ps IH]; intros y; cbn.
  - rewrite app_nil_r. by destruct y.
  - rewrite IH. cbn. by rewrite <- app_assoc.
Qed.

Lemma received_into_inbound t received len s :
  inbound (aInputBuf t) = true ->
  let s' := received_into t received len s in
  mSendFrame s' = mSendFrame s
  /\ mEmptySendFrame s' = mEmptySendFrame s
  /\ mSendFrameIter s' = mSendFrameIter s
  /\ mSending s' = mSending s
  /\ mHandlingRxFrame s' = mHandlingRxFrame s
  /\ mHandlingSendDone s' = mHandlingSendDone s.
Proof.
  intros Hin. unfold received_into. cbv zeta.
  destruct (aInputBuf t); try discriminate; done.
Qed.

(** With a zero data-length field in both send buffers the handler cannot
    take a completed transaction for a delivered frame. *)
Lemma no_send_done_without_payload s c :
  outbound (aMISOBuf c) = true ->
  spi_header_get_data_len (mSendFrame s) = 0 ->
  spi_header_get_data_len (mEmptySendFrame s) = 0 ->
  detects_send_done s c = false.
Proof.
  intros Hout Hs He.
  apply not_true_is_false. rewrite detects_send_done_iff.
  intros (_ & _ & Hpos & _). revert Hpos.
  unfold header_lengths.
  destruct (aMISOBuf c); try discriminate; cbn [load];
    rewrite ?Hs, ?He;
    destruct (SPI_HEADER_LENGTH <=? aTransactionLength c),
      (SPI_HEADER_LENGTH <=? aMISOBufLen c),
      (SPI_HEADER_LENGTH <=? aMOSIBufLen c); cbn; lia.
Qed.

Lemma empty_frame_callback y received len r :
  empty_frame_in_flight y ->
  callback received len y = Some r ->
  (Post mHandleSendDone ∉ calls r)
  /\ empty_frame_in_flight
       (foldl absorb (System (after r) (posted y) None) (calls r)).
Proof.
  intros (Hsending & Hsd & Hq & Hds & Hde & Harmed) Hcb.
  unfold callback in Hcb. unfold armed_ok in Harmed.
  destruct (armed y) as [t |]; [| discriminate].
  apply andb_true_iff in Harmed as (Hout & Hin).
  injection Hcb as <-.
  set (s1 := received_into t received len (ncp y)).
  set (c := completion_of t len).
  pose proof (received_into_inbound t received len (ncp y) Hin)
    as (Hf1 & Hf2 & _ & Hf4 & _ & Hf6).
  fold s1 in Hf1, Hf2, Hf4, Hf6.
  assert (detects_send_done s1 c = false) as Hno.
  { apply no_send_done_without_payload; [exact Hout | |]; congruence. }
  split.
  { rewrite handler_posts_send_done, Hno. discriminate. }
  pose proof (handler_prepares s1 c) as (_ & Hcalls).
  pose proof (handler_frame s1 c) as (_ & _ & _ & Hs' & _ & Hsd').
  pose proof (handler_send_headers s1 c SendFrame eq_refl) as (_ & Hd1 & _).
  pose proof (handler_send_headers s1 c EmptySendFrame eq_refl)
    as (_ & Hd2 & _).
  cbv zeta in Hcalls. cbn [load] in Hd1, Hd2.
  rewrite Hcalls, foldl_app, foldl_absorb_posts.
  cbn [foldl absorb ncp posted armed].
  rewrite handler_posts, Hno, app_nil_r.
  unfold empty_frame_in_flight, armed_ok.
  cbn [ncp posted armed aOutputBuf aInputBuf].
  rewrite Hs', Hsd', Hno, Hd1, Hd2, Hf1, Hf2, Hf4, Hf6, Hsending, Hsd.
  repeat split; try done.
  - intros Hel. apply elem_of_app in Hel as [Hel | Hel]; [done |].
    destruct (detects_rx_frame s1 c);
      [apply list_elem_of_singleton in Hel; discriminate
      | by apply elem_of_nil in Hel].
  - cbn. by destruct (mHandlingRxFrame _).
Qed.

Lemma empty_frame_step y e :
  empty_frame_in_flight y -> empty_frame_in_flight (step y e).
Proof.
  intros Inv. destruct e as [received len | |]; cbn [step].
  - destruct (callback received len y) as [r |] eqn:Hcb; [| exact Inv].
    by apply (empty_frame_callback y received len r).
  - destruct Inv as (Hsending & Hsd & Hq & Hds & Hde & Harmed).
    destruct (posted y) as [| t rest] eqn:Hp.
    + unfold empty_frame_in_flight. by rewrite Hp.
    + destruct t.
      * unfold empty_frame_in_flight, armed_ok in *.
        cbn [run_tasklet ncp posted armed]. rewrite HandleRxFrame_run.
        cbn [after fst snd]. fields.
        repeat split; try done.
        intros Hel. apply Hq. by right.
      * exfalso. apply Hq. by left.
  - destruct Inv as (Hsending & Hsd & Hq & Hds & Hde & Harmed).
    unfold empty_frame_in_flight, armed_ok in *.
    cbn [ncp posted armed]. unfold OutboundFrameBegin. unfold_m.
    rewrite Hsending. cbn [fst snd]. done.
Qed.

Lemma empty_frame_run evs y :
  empty_frame_in_flight y -> empty_frame_in_flight (run evs y).
Proof.
  unfold run. revert y.
  induction evs as [| e evs IH]; intros y Inv; cbn [foldl].
  - exact Inv.
  - apply IH. by apply empty_frame_step.
Qed.

(** ** More on the header codec *)

Lemma u8_small x : 0 <= x < 256 -> u8 x = x.
Proof. intros H. unfold u8. apply Z.mod_small. lia. Qed.

Lemma low_byte x : Z.land (Z.shiftr x 0) 255 = x mod 256.
Proof.
  rewrite Z.shiftr_0_r. change 255 with (Z.ones 8).
  by rewrite Z.land_ones by lia.
Qed.

Lemma high_byte x :
  0 <= x < 65536 -> Z.land (Z.shiftr x 8) 255 = x / 256.
Proof.
  intros H. change 255 with (Z.ones 8).
  rewrite Z.land_ones, Z.shiftr_div_pow2 by lia.
  change (2 ^ 8) with 256.
  apply Z.mod_small.
  split; [apply Z.div_pos; lia | apply Z.div_lt_upper_bound; lia].
Qed.

Lemma two_bytes_value b1 b2 :
  0 <= b1 < 256 -> 0 <= b2 < 256 ->
  u16 (b1 + Z.shiftl b2 8) = b1 + 256 * b2
  /\ (b1 + 256 * b2) mod 256 = b1
  /\ (b1 + 256 * b2) / 256 = b2.
Proof.
  intros H1 H2. rewrite Z.shiftl_mul_pow2 by lia. change (2 ^ 8) with 256.
  split; [rewrite u16_small; lia |].
  replace (b1 + 256 * b2) with (b1 + b2 * 256) by lia.
  rewrite Z.mod_add, Z.div_add by lia.
  rewrite Z.mod_small, Z.div_small by lia. lia.
Qed.

(** X1: written one after the other to a buffer of at least five bytes, a
    flag byte and two 16-bit lengths are read back as written; the header
    is then the flag byte, the accept length low byte first and the data
    length low byte first, and the bytes past the header are as before. *)
Theorem header_write_read h flags accept data :
  (5 <= length h)%nat ->
  0 <= flags < 256 -> 0 <= accept < 65536 -> 0 <= data < 65536 ->
  let h' := spi_header_set_data_len
              (spi_header_set_accept_len
                 (spi_header_set_flag_byte h flags) accept) data in
  spi_header_get_flag_byte h' = flags
  /\ spi_header_get_accept_len h' = accept
  /\ spi_header_get_data_len h' = data
  /\ take 5 h'
     = [flags; accept mod 256; accept / 256; data mod 256; data / 256]
  /\ drop 5 h' = drop 5 h
  /\ length h' = length h.
Proof.
  intros Hlen Hf Ha Hd. cbv zeta.
  split.
  { rewrite get_flag_set_data_len, get_flag_set_accept_len,
      get_flag_set_flag by lia.
    by apply u8_small. }
  split.
  { rewrite get_accept_len_set_data_len, get_set_accept_len
      by (rewrite length_set_flag_byte; lia).
    by apply u16_small. }
  split.
  { rewrite get_set_data_len
      by (rewrite length_set_accept_len, length_set_flag_byte; lia).
    by apply u16_small. }
  split; [| split].
  - destruct h as [| b0 [| b1 [| b2 [| b3 [| b4 rest]]]]];
      cbn [length] in Hlen; try lia.
    unfold spi_header_set_data_len, spi_header_set_accept_len,
      spi_header_set_flag_byte. cbn.
    rewrite u8_small, !u16_small, !low_byte, !high_byte by done.
    reflexivity.
  - destruct h as [| b0 [| b1 [| b2 [| b3 [| b4 rest]]]]];
      cbn [length] in Hlen; try lia.
    reflexivity.
  - by rewrite length_set_data_len, length_set_accept_len,
      length_set_flag_byte.
Qed.

(** X2: the two lengths read from a header are 16-bit values whatever the
    buffer holds; when the five header bytes are bytes, each length is its
    low byte plus 256 times its high byte, and writing back what was read
    leaves the buffer as it was. *)
Theorem header_read_write h :
  (0 <= spi_header_get_accept_len h < 65536
   /\ 0 <= spi_header_get_data_len h < 65536)
  /\ ((5 <= length h)%nat -> header_bytes_ok h ->
        0 <= spi_header_get_flag_byte h < 256
        /\ spi_header_get_accept_len h = byte_at h 1 + 256 * byte_at h 2
        /\ spi_header_get_data_len h = byte_at h 3 + 256 * byte_at h 4
        /\ spi_header_set_flag_byte h (spi_header_get_flag_byte h) = h
        /\ spi_header_set_accept_len h (spi_header_get_accept_len h) = h
        /\ spi_header_set_data_len h (spi_header_get_data_len h) = h).
Proof.
  split; [split; apply u16_range |].
  intros Hlen Hok.
  destruct h as [| b0 [| b1 [| b2 [| b3 [| b4 rest]]]]];
    cbn [length] in Hlen; try lia.
  unfold header_bytes_ok in Hok. cbn [take] in Hok.
  pose proof (Forall_inv Hok) as H0. apply Forall_inv_tail in Hok.
  pose proof (Forall_inv Hok) as H1. apply Forall_inv_tail in Hok.
  pose proof (Forall_inv Hok) as H2. apply Forall_inv_tail in Hok.
  pose proof (Forall_inv Hok) as H3. apply Forall_inv_tail in Hok.
  pose proof (Forall_inv Hok) as H4. cbv beta in H0, H1, H2, H3, H4.
  destruct (two_bytes_value b1 b2 H1 H2) as (Ea & Ea1 & Ea2).
  destruct (two_bytes_value b3 b4 H3 H4) as (Ed & Ed1 & Ed2).
  unfold spi_header_get_flag_byte, spi_header_get_accept_len,
    spi_header_get_data_len, spi_header_set_flag_byte,
    spi_header_set_accept_len, spi_header_set_data_len, byte_at.
  cbn [lookup list_lookup default]. cbn.
  rewrite Ea, Ed.
  split; [done |]. split; [done |]. split; [done |].
  rewrite u8_small, !u16_small, !low_byte, !high_byte by lia.
  rewrite Ea1, Ea2, Ed1, Ed2. done.
Qed.

(** X3: the three fields of a header do not overlap.  Writing one of them
    changes no byte but its own (byte 0 for the flags, bytes 1 and 2 for
    the accept length, bytes 3 and 4 for the data length), so the other two
    fields read as before; writes to different fields commute, and of two
    writes to the same field the later one stands. *)
Theorem header_fields_independent h flags accept data :
  (forall i : nat, i <> 0%nat ->
     spi_header_set_flag_byte h flags !! i = h !! i)
  /\ (forall i : nat, i <> 1%nat -> i <> 2%nat ->
        spi_header_set_accept_len h accept !! i = h !! i)
  /\ (forall i : nat, i <> 3%nat -> i <> 4%nat ->
        spi_header_set_data_len h data !! i = h !! i)
  /\ (spi_header_get_accept_len (spi_header_set_flag_byte h flags)
      = spi_header_get_accept_len h
      /\ spi_header_get_data_len (spi_header_set_flag_byte h flags)
         = spi_header_get_data_len h
      /\ spi_header_get_flag_byte (spi_header_set_accept_len h accept)
         = spi_header_get_flag_byte h
      /\ spi_header_get_data_len (spi_header_set_accept_len h accept)
         = spi_header_get_data_len h
      /\ spi_header_get_flag_byte (spi_header_set_data_len h data)
         = spi_header_get_flag_byte h
      /\ spi_header_get_accept_len (spi_header_set_data_len h data)
         = spi_header_get_accept_len h)
  /\ (spi_header_set_accept_len (spi_header_set_flag_byte h flags) accept
      = spi_header_set_flag_byte (spi_header_set_accept_len h accept) flags
      /\ spi_header_set_data_len (spi_header_set_flag_byte h flags) data
         = spi_header_set_flag_byte (spi_header_set_data_len h data) flags
      /\ spi_header_set_data_len (spi_header_set_accept_len h accept) data
         = spi_header_set_accept_len (spi_header_set_data_len h data) accept)
  /\ (forall flags' accept' data',
        spi_header_set_flag_byte (spi_header_set_flag_byte h flags') flags
        = spi_header_set_flag_byte h flags
        /\ spi_header_set_accept_len
             (spi_header_set_accept_len h accept') accept
           = spi_header_set_accept_len h accept
        /\ spi_header_set_data_len (spi_header_set_data_len h data') data
           = spi_header_set_data_len h data).
Proof.
  split.
  { intros i Hi. unfold spi_header_set_flag_byte.
    by rewrite list_lookup_insert_ne. }
  split.
  { intros i H1 H2. unfold spi_header_set_accept_len. cbv zeta.
    by rewrite !list_lookup_insert_ne. }
  split.
  { intros i H3 H4. unfold spi_header_set_data_len. cbv zeta.
    by rewrite !list_lookup_insert_ne. }
  split.
  { rewrite get_accept_len_set_flag_byte, get_data_len_set_flag_byte,
      get_flag_set_accept_len, get_data_len_set_accept_len,
      get_flag_set_data_len, get_accept_len_set_data_len. done. }
  split.
  { unfold spi_header_set_flag_byte, spi_header_set_accept_len,
      spi_header_set_data_len. cbv zeta.
    repeat split.
    - rewrite (list_insert_insert_ne _ 0 2), (list_insert_insert_ne _ 0 1)
        by lia. done.
    - rewrite (list_insert_insert_ne _ 0 4), (list_insert_insert_ne _ 0 3)
        by lia. done.
    - rewrite (list_insert_insert_ne _ 1 4), (list_insert_insert_ne _ 1 3),
        (list_insert_insert_ne _ 2 4), (list_insert_insert_ne _ 2 3)
        by lia. done. }
  intros flags' accept' data'.
  unfold spi_header_set_flag_byte, spi_header_set_accept_len,
    spi_header_set_data_len. cbv zeta.
  repeat split.
  - by rewrite list_insert_insert_eq.
  - rewrite (list_insert_insert_ne _ 1 2) by lia.
    by rewrite !list_insert_insert_eq.
  - rewrite (list_insert_insert_ne _ 3 4) by lia.
    by rewrite !list_insert_insert_eq.
Qed.

Lemma OutboundFrameBegin_run s :
  OutboundFrameBegin s
  = if mSending s
    then (kThreadError_Busy, s, [])
    else (kThreadError_None, set_mSendFrameIter SPI_HEADER_LENGTH s, []).
Proof. unfold OutboundFrameBegin. unfold_m. by destruct (mSending s). Qed.

(** ** The transport and its users: what every history keeps *)

(** One completed transaction, in closed form. *)
Lemma transaction_done_run y received len t :
  armed y = Some t ->
  let r := SpiTransactionComplete (completion_of t len)
             (received_into t received len (ncp y)) in
  let s' := after r in
  let more := mSending s' && negb (mHandlingSendDone s') in
  step y (TransactionDone received len)
  = System s' (posted y ++ posts (calls r))
      (Some (Transaction
               (if more then SendFrame else EmptySendFrame)
               (if more
                then u16 (result (OutboundFrameSize s') + SPI_HEADER_LENGTH)
                else SPI_HEADER_LENGTH)
               (if mHandlingRxFrame s'
                then EmptyReceiveFrame else ReceiveFrame)
               (if mHandlingRxFrame s'
                then SPI_HEADER_LENGTH else u16 sizeof_mReceiveFrame)
               more)).
Proof.
  intros Harmed. cbv zeta. cbn [step]. unfold callback. rewrite Harmed.
  pose proof (handler_prepares (received_into t received len (ncp y))
                (completion_of t len)) as (_ & Hcalls).
  cbv zeta in Hcalls. rewrite Hcalls at 1.
  rewrite foldl_app, foldl_absorb_posts. reflexivity.
Qed.

Lemma received_into_flags t received len s :
  let s' := received_into t received len s in
  mSendFrameIter s' = mSendFrameIter s
  /\ mSending s' = mSending s
  /\ mHandlingRxFrame s' = mHandlingRxFrame s
  /\ mHandlingSendDone s' = mHandlingSendDone s.
Proof. unfold received_into. cbv zeta. by destruct (aInputBuf t). Qed.

Lemma feed_flags src n s :
  let s' := after (OutboundFrameFeedData src n s) in
  mReceiveFrame s' = mReceiveFrame s
  /\ mEmptySendFrame s' = mEmptySendFrame s
  /\ mEmptyReceiveFrame s' = mEmptyReceiveFrame s
  /\ mSending s' = mSending s
  /\ mHandlingRxFrame s' = mHandlingRxFrame s
  /\ mHandlingSendDone s' = mHandlingSendDone s.
Proof.
  cbv zeta.
  unfold OutboundFrameFeedData, OutboundFrameGetRemaining, OutboundFrameSize,
    memcpy_at_iter.
  unfold_m. by destruct (_ <? n).
Qed.

Lemma posted_once_act y a : posted_once y -> posted_once (act y a).
Proof.
  intros (Hrx & Hsd).
  destruct a as [[received len | |] | frame | message | answer];
    cbn [act].
  - destruct (armed y) as [t |] eqn:Harmed;
      [| cbn [step]; unfold callback; rewrite Harmed; by split].
    rewrite (transaction_done_run y received len t Harmed).
    set (s1 := received_into t received len (ncp y)).
    set (c := completion_of t len).
    pose proof (received_into_flags t received len (ncp y))
      as (_ & _ & Hf1 & Hf2).
    fold s1 in Hf1, Hf2.
    pose proof (handler_frame s1 c) as (_ & _ & _ & _ & Hrx' & Hsd').
    pose proof (detects_rx_frame_iff s1 c) as Hdrx.
    pose proof (detects_send_done_iff s1 c) as Hdsd.
    unfold posted_once. cbn [ncp posted].
    rewrite !count_occ_app, handler_posts, !count_occ_app, Hrx', Hsd', Hrx, Hsd,
      Hf1, Hf2.
    destruct (detects_rx_frame s1 c), (detects_send_done s1 c);
      cbn [count_occ]; rewrite ?Hf1, ?Hf2 in *;
      destruct (mHandlingRxFrame (ncp y)), (mHandlingSendDone (ncp y));
      cbn; try done.
    all: try (destruct (proj1 Hdrx eq_refl) as (? & _); discriminate).
    all: try (destruct (proj1 Hdsd eq_refl) as (_ & ? & _); discriminate).
  - cbn [step]. destruct (posted y) as [| t rest] eqn:Hp; [split; by rewrite Hp |].
    unfold posted_once. cbn [ncp posted].
    destruct t; cbn [run_tasklet];
      rewrite ?HandleRxFrame_run, ?HandleSendDone_run;
      cbn [after fst snd]; fields; cbn in Hrx, Hsd;
      destruct (mHandlingRxFrame (ncp y)), (mHandlingSendDone (ncp y));
      split; lia.
  - cbn [step]. unfold posted_once. cbn [ncp posted].
    rewrite OutboundFrameBegin_run.
    by destruct (mSending (ncp y)).
  - pose proof (feed_flags frame (Z.of_nat (length frame)) (ncp y))
      as (_ & _ & _ & _ & H1 & H2).
    unfold posted_once. cbn [ncp posted]. by rewrite H1, H2.
  - rewrite OutboundFrameFeedMessage_as_data.
    pose proof (feed_flags message (GetLength message) (ncp y))
      as (_ & _ & _ & _ & H1 & H2).
    unfold posted_once. cbn [ncp posted]. by rewrite H1, H2.
  - unfold call_OutboundFrameSend, posted_once. cbn [ncp posted].
    rewrite OutboundFrameSend_run. by cbn.
Qed.

(** X4: the tasklet queue and the pending flags agree throughout.  Let
    each pending flag be set exactly when its tasklet is in the queue, once
    (as with clear flags and an empty queue).  Then after any sequence of
    completed transactions, tasklet runs and calls of the assembly
    interface this is still so: neither tasklet is ever in the queue twice,
    and the queue never holds more than two tasklets. *)
Theorem tasklets_posted_once y acts :
  posted_once y ->
  let y' := play acts y in
  posted_once y'
  /\ (forall t, (count_occ tasklet_eq_dec (posted y') t <= 1)%nat)
  /\ (mHandleRxFrame ∈ posted y' <-> mHandlingRxFrame (ncp y') = true)
  /\ (mHandleSendDone ∈ posted y' <-> mHandlingSendDone (ncp y') = true)
  /\ (length (posted y') <= 2)%nat.
Proof.
  intros Inv. cbv zeta.
  assert (posted_once (play acts y)) as (Hrx & Hsd).
  { unfold play. revert y Inv.
    induction acts as [| a acts IH]; intros y Inv; cbn [foldl]; [done |].
    apply IH. by apply posted_once_act. }
  split; [by split |].
  split.
  { intros []; [rewrite Hrx | rewrite Hsd];
      destruct (mHandlingRxFrame _), (mHandlingSendDone _); lia. }
  split.
  { rewrite list_elem_of_In, (count_occ_In tasklet_eq_dec), Hrx.
    destruct (mHandlingRxFrame _); split; (done || lia). }
  split.
  { rewrite list_elem_of_In, (count_occ_In tasklet_eq_dec), Hsd.
    destruct (mHandlingSendDone _); split; (done || lia). }
  assert (forall l : list tasklet,
            length l
            = (count_occ tasklet_eq_dec l mHandleRxFrame
               + count_occ tasklet_eq_dec l mHandleSendDone)%nat) as Hlen.
  { induction l as [| [] l IH]; cbn; [done | |]; rewrite IH; lia. }
  rewrite Hlen, Hrx, Hsd.
  destruct (mHandlingRxFrame _), (mHandlingSendDone _); lia.
Qed.

Section Sizes.

(** Both buffers hold at least a header, and their sizes are passed to the
    driver as [uint16_t] lengths. *)
Hypothesis send_frame_size : SPI_HEADER_LENGTH <= sizeof_mSendFrame <= 65535.
Hypothesis receive_frame_size :
  SPI_HEADER_LENGTH <= sizeof_mReceiveFrame <= 65535.

(** ** Outbound frame assembly *)

Lemma OutboundFrameSize_staged s :
  cursor_ok s -> result (OutboundFrameSize s) = staged s.
Proof.
  unfold cursor_ok, staged, SPI_HEADER_LENGTH in *. intros H.
  cbn. apply u16_small. unfold SPI_HEADER_LENGTH. lia.
Qed.

Lemma OutboundFrameGetRemaining_capacity s :
  cursor_ok s ->
  OutboundFrameGetRemaining s = (payload_capacity - staged s, s, []).
Proof.
  intros H. pose proof (OutboundFrameSize_staged s H) as Hs.
  unfold OutboundFrameGetRemaining, OutboundFrameSize in *.
  unfold_m. cbn in *. rewrite Hs.
  unfold payload_capacity, staged, cursor_ok, SPI_HEADER_LENGTH in *.
  rewrite u16_small by lia. reflexivity.
Qed.

Lemma feed_failed s src n :
  cursor_ok s -> payload_capacity - staged s < n ->
  OutboundFrameFeedData src n s = (kThreadError_Failed, s, []).
Proof.
  intros Hc Hn. unfold OutboundFrameFeedData.
  unfold bind at 1. rewrite OutboundFrameGetRemaining_capacity by done.
  rewrite (proj2 (Z.ltb_lt _ _) Hn). reflexivity.
Qed.

Lemma feed_ok s src n :
  cursor_ok s -> n <= payload_capacity - staged s ->
  OutboundFrameFeedData src n s
  = (kThreadError_None,
     set_mSendFrameIter (mSendFrameIter s + n)
       (store SendFrame
          (list_inserts (Z.to_nat (mSendFrameIter s))
             (take (Z.to_nat n) src) (mSendFrame s)) s),
     []).
Proof.
  intros Hc Hn. unfold OutboundFrameFeedData.
  unfold bind at 1. rewrite OutboundFrameGetRemaining_capacity by done.
  rewrite (proj2 (Z.ltb_ge _ _) Hn). reflexivity.
Qed.

Lemma feed_ok_sized s src n :
  sized s -> sized (after (OutboundFrameFeedData src n s)).
Proof.
  intros (H1 & H2 & H3 & H4).
  unfold OutboundFrameFeedData, OutboundFrameGetRemaining, OutboundFrameSize,
    memcpy_at_iter.
  unfold_m.
  destruct (_ <? n); repeat split; unfold set_mSendFrameIter; cbn;
    rewrite ?length_inserts; done.
Qed.

(** C7: [OutboundFrameSend] takes the payload length from the distance of
    the write cursor past the header, writes it to the data-length field of
    the send buffer's header, sets the accept-length field to zero, sets
    [mSending], and asks the driver for a transaction whose output is the
    send buffer (header plus payload) ; a Busy answer of the driver is
    returned as None (Ok), any other answer as it is. *)
Theorem OutboundFrameSend_spec s answer :
  sized s ->
  let r := OutboundFrameSend answer s in
  let frameLength := result (OutboundFrameSize s) in
  frameLength = u16 (mSendFrameIter s - SPI_HEADER_LENGTH)
  /\ (cursor_ok s -> frameLength = staged s)
  /\ spi_header_get_data_len (mSendFrame (after r)) = frameLength
  /\ spi_header_get_accept_len (mSendFrame (after r)) = 0
  /\ spi_header_get_flag_byte (mSendFrame (after r))
     = spi_header_get_flag_byte (mSendFrame s)
  /\ mSending (after r) = true
  /\ mSendFrameIter (after r) = mSendFrameIter s
  /\ calls r
     = [SpiSlavePrepareTransaction
          (Transaction SendFrame (u16 (frameLength + SPI_HEADER_LENGTH))
             EmptyReceiveFrame SPI_HEADER_LENGTH true)]
  /\ (answer = kThreadError_Busy -> result r = kThreadError_None)
  /\ (answer <> kThreadError_Busy -> result r = answer).
Proof.
  intros (Hs & _ & _ & _). cbv zeta.
  assert (5 <= length (mSendFrame s))%nat as Hlen
    by (unfold SPI_HEADER_LENGTH in *; lia).
  split; [reflexivity |].
  split; [apply OutboundFrameSize_staged |].
  rewrite OutboundFrameSend_run.
  cbn [after result calls fst snd mSendFrame mSending mSendFrameIter
       set_mSending store load].
  split.
  { rewrite get_data_len_set_accept_len, get_set_data_len by done.
    apply u16_small, u16_range. }
  split.
  { rewrite get_set_accept_len by (rewrite length_set_data_len; lia).
    reflexivity. }
  split.
  { by rewrite get_flag_set_accept_len, get_flag_set_data_len. }
  repeat split.
  - intros ->. reflexivity.
  - intros Hne. destruct answer; first [reflexivity | congruence].
Qed.

(** C8: with the write cursor in the payload area, at any position, and
    for any requested length, [OutboundFrameFeedData] answers Failed
    exactly when the requested length exceeds the capacity that remains
    (payload capacity less the bytes staged), and then leaves the object,
    send buffer and cursor included, as it was; otherwise it answers None
    (Ok), the requested bytes stand at the old cursor, every other byte of
    the send buffer is as before, and the cursor has advanced by the
    requested length.  [OutboundFrameFeedMessage] is the same function of
    the bytes of the message.  With a payload capacity of 64, one feed of
    100 bytes fails, and of a feed of 30 bytes followed by one of 40 the
    first succeeds, the second fails and the 30 bytes stay staged. *)
Theorem OutboundFrameFeedData_capacity s frame frameLength :
  sized s -> cursor_ok s -> 0 <= frameLength ->
  let r := OutboundFrameFeedData frame frameLength s in
  let remaining := payload_capacity - staged s in
  (result r = kThreadError_Failed <-> remaining < frameLength)
  /\ (result r = kThreadError_Failed -> after r = s /\ calls r = [])
  /\ (result r <> kThreadError_Failed ->
        result r = kThreadError_None
        /\ (frameLength <= Z.of_nat (length frame) ->
              view (after r) SendFrame (mSendFrameIter s) frameLength
              = take (Z.to_nat frameLength) frame
              /\ Z.of_nat (length (view (after r) SendFrame
                                     (mSendFrameIter s) frameLength))
                 = frameLength)
        /\ (forall i : nat,
              Z.of_nat i < mSendFrameIter s
              \/ mSendFrameIter s + frameLength <= Z.of_nat i ->
              mSendFrame (after r) !! i = mSendFrame s !! i)
        /\ mSendFrameIter (after r) = mSendFrameIter s + frameLength
        /\ staged (after r) = staged s + frameLength
        /\ sized (after r) /\ cursor_ok (after r))
  /\ (forall message : Message,
        Z.of_nat (length message) < 65536 ->
        OutboundFrameFeedMessage message s
        = OutboundFrameFeedData message (Z.of_nat (length message)) s)
  /\ (payload_capacity = 64 -> staged s = 0 ->
        (forall big, result (OutboundFrameFeedData big 100 s)
                     = kThreadError_Failed)
        /\ (forall first second,
              length first = 30%nat -> length second = 40%nat ->
              let r1 := OutboundFrameFeedData first 30 s in
              let r2 := OutboundFrameFeedData second 40 (after r1) in
              result r1 = kThreadError_None
              /\ result r2 = kThreadError_Failed
              /\ after r2 = after r1
              /\ staged (after r2) = 30
              /\ view (after r2) SendFrame SPI_HEADER_LENGTH 30 = first)).
Proof.
  intros Hsized Hcur Hpos. cbv zeta.
  assert (Hcases :
    forall src n, 0 <= n ->
      n <= payload_capacity - staged s ->
      let r := OutboundFrameFeedData src n s in
      result r = kThreadError_None
      /\ (n <= Z.of_nat (length src) ->
            view (after r) SendFrame (mSendFrameIter s) n
            = take (Z.to_nat n) src)
      /\ (forall i : nat,
            Z.of_nat i < mSendFrameIter s
            \/ mSendFrameIter s + n <= Z.of_nat i ->
            mSendFrame (after r) !! i = mSendFrame s !! i)
      /\ mSendFrameIter (after r) = mSendFrameIter s + n
      /\ cursor_ok (after r)).
  { intros src n Hn Hfit. cbv zeta. rewrite feed_ok by done.
    destruct Hsized as (Hs & _).
    unfold cursor_ok, staged, payload_capacity, SPI_HEADER_LENGTH in *.
    cbn [result after fst snd mSendFrameIter set_mSendFrameIter store].
    split; [done |]. split.
    { intros Hsrc.
      assert (length (take (Z.to_nat n) src) = Z.to_nat n) as Hk
        by (rewrite length_take; lia).
      unfold view. cbn [load mSendFrame set_mSendFrameIter store].
      rewrite <- Hk at 1. apply view_inserts. lia. }
    split.
    { intros i [Hi | Hi].
      - apply list_lookup_inserts_lt. lia.
      - apply list_lookup_inserts_ge. rewrite length_take. lia. }
    split; lia. }
  split.
  { destruct (Z_lt_le_dec (payload_capacity - staged s) frameLength) as [H | H].
    - rewrite feed_failed by done. cbn. tauto.
    - destruct (Hcases frame frameLength Hpos H) as (-> & _).
      split; [discriminate | lia]. }
  split.
  { destruct (Z_lt_le_dec (payload_capacity - staged s) frameLength) as [H | H].
    - rewrite feed_failed by done. cbn. tauto.
    - destruct (Hcases frame frameLength Hpos H) as (-> & _). discriminate. }
  split.
  { destruct (Z_lt_le_dec (payload_capacity - staged s) frameLength) as [H | H].
    - rewrite feed_failed by done. cbn. congruence.
    - intros _.
      destruct (Hcases frame frameLength Hpos H) as (H1 & H2 & H3 & H4 & H5).
      split; [done |].
      split; [intros Hsrc; split;
              [by apply H2 | rewrite (H2 Hsrc), length_take; lia] |].
      split; [done |]. split; [done |].
      split; [unfold staged; lia |].
      split; [by apply feed_ok_sized | done]. }
  split.
  { intros message Hm. rewrite OutboundFrameFeedMessage_as_data.
    unfold GetLength. rewrite u16_small by lia. reflexivity. }
  intros Hcap H0. split.
  { intros big. rewrite feed_failed by (done || lia). reflexivity. }
  intros first second Hf Hsnd. cbv zeta.
  destruct (Hcases first 30 ltac:(lia) ltac:(lia)) as (H1 & H2 & H3 & H4 & H5).
  assert (staged (after (OutboundFrameFeedData first 30 s)) = 30) as Hst
    by (unfold staged in *; lia).
  rewrite (feed_failed (after (OutboundFrameFeedData first 30 s)))
    by (done || lia).
  cbn [result after fst snd].
  repeat split; try done.
  unfold staged in H0. replace SPI_HEADER_LENGTH with (mSendFrameIter s) by lia.
  rewrite H2 by lia. apply take_ge. lia.
Qed.

(** ** The completion handler: what it prepares *)

Lemma handler_accept_len s c :
  sized s ->
  let s' := after (SpiTransactionComplete c s) in
  let out := if mSending s' && negb (mHandlingSendDone s')
             then SendFrame else EmptySendFrame in
  spi_header_get_accept_len (load s' out)
  = if mHandlingRxFrame s'
    then 0 else sizeof_mReceiveFrame - SPI_HEADER_LENGTH.
Proof.
  intros (H1 & _ & H3 & _). cbv zeta. rewrite SpiTransactionComplete_run.
  cbn [after fst snd].
  unfold SPI_HEADER_LENGTH in *.
  destruct (detects_rx_frame s c), (detects_send_done s c),
    (clears_reset_flag c);
    destruct s as [sf rf esf erf it [] [] []]; fields;
    (rewrite get_set_accept_len
       by (rewrite ?length_set_flag_byte; lia));
    apply u16_small; lia.
Qed.

Lemma handler_sized s c :
  sized s -> sized (after (SpiTransactionComplete c s)).
Proof.
  intros (H1 & H2 & H3 & H4).
  pose proof (handler_frame s c) as (Hrf & Herf & _).
  pose proof (handler_send_headers s c SendFrame eq_refl) as (Hs & _).
  pose proof (handler_send_headers s c EmptySendFrame eq_refl) as (He & _).
  cbn [load] in *. unfold sized. rewrite Hrf, Herf, Hs, He. done.
Qed.

(** C3: the transaction that a run of the completion handler prepares has,
    when a receive is pending as the handler prepares it, the header-only
    empty receive buffer as its input, and the accept-length field of the
    header of its output buffer is zero; when none is pending, its input is
    the receive buffer at its full size and that accept-length field is the
    payload capacity of the receive buffer, its size less the five bytes of
    the header.  A receive is pending then exactly when one was pending
    before or this run detected one. *)
Theorem next_transaction_inbound s c :
  sized s ->
  let r := SpiTransactionComplete c s in
  exists t,
    prepared (calls r) = [t]
    /\ (mHandlingRxFrame (after r) = true
        <-> mHandlingRxFrame s = true \/ Post mHandleRxFrame ∈ calls r)
    /\ (mHandlingRxFrame (after r) = true ->
          aInputBuf t = EmptyReceiveFrame
          /\ aInputBufLen t = SPI_HEADER_LENGTH
          /\ spi_header_get_accept_len (load (after r) (aOutputBuf t)) = 0)
    /\ (mHandlingRxFrame (after r) = false ->
          aInputBuf t = ReceiveFrame
          /\ aInputBufLen t = sizeof_mReceiveFrame
          /\ spi_header_get_accept_len (load (after r) (aOutputBuf t))
             = sizeof_mReceiveFrame - SPI_HEADER_LENGTH).
Proof.
  intros Hsized. cbv zeta.
  pose proof (handler_prepares s c) as (Hp & _).
  pose proof (handler_accept_len s c Hsized) as Ha.
  pose proof (handler_frame s c) as (_ & _ & _ & _ & Hrx & _).
  cbv zeta in Hp, Ha.
  eexists. split; [exact Hp |].
  cbn [aInputBuf aInputBufLen aOutputBuf].
  split.
  { rewrite handler_posts_rx, Hrx, orb_true_iff. tauto. }
  rewrite Ha.
  split; intros ->; repeat split.
  apply u16_small. unfold SPI_HEADER_LENGTH in *. lia.
Qed.

(** C4: every run of the completion handler, whatever the length of the
    completed transaction, prepares exactly one transaction, as the last
    thing it does.  When a send is outstanding and its completion is not
    pending as the handler prepares it, the output is the send buffer, its
    length the payload assembled plus the five bytes of the header (the sum
    is taken in [uint16_t], and is exact with the write cursor in the
    payload area), and the driver is told that more data follows; otherwise
    the output is the header-only empty send buffer and the driver is not
    told so. *)
Theorem next_transaction_outbound s c :
  let r := SpiTransactionComplete c s in
  let more := mSending (after r) && negb (mHandlingSendDone (after r)) in
  exists t,
    prepared (calls r) = [t]
    /\ calls r = (Post <$> posts (calls r)) ++ [SpiSlavePrepareTransaction t]
    /\ (more = true
        <-> mSending s = true /\ mHandlingSendDone s = false
            /\ Post mHandleSendDone ∉ calls r)
    /\ (more = true ->
          aOutputBuf t = SendFrame
          /\ aOutputBufLen t
             = u16 (result (OutboundFrameSize (after r)) + SPI_HEADER_LENGTH)
          /\ (cursor_ok s ->
                result (OutboundFrameSize (after r)) = staged s
                /\ aOutputBufLen t = staged s + SPI_HEADER_LENGTH))
    /\ (more = false ->
          aOutputBuf t = EmptySendFrame
          /\ aOutputBufLen t = SPI_HEADER_LENGTH)
    /\ aRequestTransactionFlag t = more.
Proof.
  cbv zeta.
  pose proof (handler_prepares s c) as (Hp & Hl).
  pose proof (handler_frame s c) as (_ & _ & Hit & Hsending & _ & Hsd).
  cbv zeta in Hp, Hl.
  eexists. split; [exact Hp |]. split; [exact Hl |].
  cbn [aOutputBuf aOutputBufLen aRequestTransactionFlag].
  split.
  { rewrite handler_posts_send_done, Hsending, Hsd.
    destruct (mSending s), (mHandlingSendDone s), (detects_send_done s c);
      cbn; split; try done; intros (? & ? & ?); done. }
  split.
  { intros ->. split; [done |]. split; [done |].
    intros Hcur.
    assert (cursor_ok (after (SpiTransactionComplete c s))) as Hcur'
      by (unfold cursor_ok; rewrite Hit; exact Hcur).
    rewrite OutboundFrameSize_staged by done.
    unfold staged. rewrite Hit. split; [done |].
    apply u16_small.
    unfold cursor_ok, SPI_HEADER_LENGTH in *. lia. }
  split; [| done].
  intros ->. done.
Qed.

(** C6, as amended: a run of the completion handler zeroes the flag byte of
    both send buffers exactly when the completed transaction is at least
    one byte long and the buffer that was transmitted (the output, MISO,
    side of the transaction) held at least one byte; the length of the
    buffer received into plays no part.  Otherwise both flag bytes are as
    before, and the other member functions do not write them, so the reset
    flag stays set in both headers until the first such transaction. *)
Theorem reset_flag_cleared_iff s c :
  sized s ->
  let r := SpiTransactionComplete c s in
  let exchanged := 1 <= aTransactionLength c /\ 1 <= aMISOBufLen c in
  (exchanged -> flag_bytes (after r) = (0, 0))
  /\ (~ exchanged -> flag_bytes (after r) = flag_bytes s)
  /\ (reset_flag_set (mSendFrame s) = true ->
      reset_flag_set (mEmptySendFrame s) = true ->
        (flag_bytes (after r) = (0, 0) <-> exchanged)
        /\ (~ exchanged ->
              reset_flag_set (mSendFrame (after r)) = true
              /\ reset_flag_set (mEmptySendFrame (after r)) = true))
  /\ (forall answer, flag_bytes (after (OutboundFrameSend answer s))
                     = flag_bytes s)
  /\ flag_bytes (after (OutboundFrameBegin s)) = flag_bytes s
  /\ flag_bytes (after (HandleSendDone s)) = flag_bytes s
  /\ flag_bytes (after (HandleRxFrame s)) = flag_bytes s
  /\ (cursor_ok s ->
      forall frame frameLength,
        flag_bytes (after (OutboundFrameFeedData frame frameLength s))
        = flag_bytes s).
Proof.
  intros Hsized. cbv zeta.
  assert (1 <= length (mSendFrame s))%nat as Hs1
    by (destruct Hsized as (H & _); unfold SPI_HEADER_LENGTH in *; lia).
  assert (1 <= length (mEmptySendFrame s))%nat as He1
    by (destruct Hsized as (_ & _ & H & _); unfold SPI_HEADER_LENGTH in *; lia).
  pose proof (handler_send_headers s c SendFrame eq_refl) as (_ & _ & Hs).
  pose proof (handler_send_headers s c EmptySendFrame eq_refl) as (_ & _ & He).
  cbn [load] in Hs, He.
  assert (Hcl : clears_reset_flag c = true
                <-> 1 <= aTransactionLength c /\ 1 <= aMISOBufLen c).
  { unfold clears_reset_flag. rewrite andb_true_iff, !Z.leb_le. tauto. }
  assert (Hyes : 1 <= aTransactionLength c /\ 1 <= aMISOBufLen c ->
                 flag_bytes (after (SpiTransactionComplete c s)) = (0, 0)).
  { intros Hx. apply Hcl in Hx. unfold flag_bytes.
    rewrite Hs, He, Hx, !get_flag_set_flag by done. reflexivity. }
  assert (Hno : ~ (1 <= aTransactionLength c /\ 1 <= aMISOBufLen c) ->
                flag_bytes (after (SpiTransactionComplete c s))
                = flag_bytes s).
  { intros Hx. unfold flag_bytes. rewrite Hs, He.
    destruct (clears_reset_flag c); [| done]. tauto. }
  split; [exact Hyes |]. split; [exact Hno |].
  split.
  { intros Hfs Hfe. split.
    - split; [| exact Hyes].
      intros H0.
      destruct (decide (1 <= aTransactionLength c /\ 1 <= aMISOBufLen c))
        as [Hx | Hx]; [done |].
      rewrite (Hno Hx) in H0. unfold flag_bytes in H0.
      unfold reset_flag_set in Hfs.
      injection H0 as H0 _. rewrite H0 in Hfs. discriminate.
    - intros Hx. apply Hno in Hx. unfold flag_bytes in Hx.
      injection Hx as H1 H2. unfold reset_flag_set.
      rewrite H1, H2. done. }
  split.
  { intros answer. rewrite OutboundFrameSend_run. unfold flag_bytes.
    cbn [after fst snd]. fields.
    by rewrite get_flag_set_accept_len, get_flag_set_data_len. }
  split.
  { unfold OutboundFrameBegin. unfold_m. destruct (mSending s); reflexivity. }
  split; [reflexivity |]. split; [reflexivity |].
  intros Hcur frame frameLength.
  destruct (Z_lt_le_dec (payload_capacity - staged s) frameLength) as [H | H].
  - by rewrite feed_failed.
  - rewrite feed_ok by done. unfold flag_bytes, spi_header_get_flag_byte.
    cbn [after fst snd]. fields.
    rewrite byte_at_inserts_lt; [done |].
    unfold cursor_ok, SPI_HEADER_LENGTH in Hcur. lia.
Qed.

(** ** An outbound frame without payload *)

(** C10: let [OutboundFrameSend] be called with the write cursor just past
    the header, so that no payload byte is staged, at a time when no send
    completion is pending and, as after construction over zeroed storage,
    the data-length field of the empty send buffer is zero.  Then the
    data-length field of the header that goes out is zero and [mSending]
    is set; and after any sequence of completed transactions, of whatever
    length and content, of tasklet runs and of calls of
    [OutboundFrameBegin], [mSending] is still set, [OutboundFrameBegin]
    answers Busy, no send completion is pending or posted, and the next
    run of the completion handler does not post the send-done tasklet
    either. *)
Theorem empty_frame_send_never_completes y answer :
  sized (ncp y) ->
  mSendFrameIter (ncp y) = SPI_HEADER_LENGTH ->
  mHandlingSendDone (ncp y) = false ->
  mHandleSendDone ∉ posted y ->
  spi_header_get_data_len (mEmptySendFrame (ncp y)) = 0 ->
  armed_ok y = true ->
  let y1 := call_OutboundFrameSend answer y in
  spi_header_get_data_len (mSendFrame (ncp y1)) = 0
  /\ mSending (ncp y1) = true
  /\ forall evs,
       let y' := run evs y1 in
       mSending (ncp y') = true
       /\ mHandlingSendDone (ncp y') = false
       /\ (mHandleSendDone ∉ posted y')
       /\ result (OutboundFrameBegin (ncp y')) = kThreadError_Busy
       /\ (forall received len r,
             callback received len y' = Some r ->
             Post mHandleSendDone ∉ calls r).
Proof.
  intros Hsized Hit Hsd Hq Hde Harmed. cbv zeta.
  assert (empty_frame_in_flight (call_OutboundFrameSend answer y)) as Inv.
  { destruct Hsized as (Hs & _).
    unfold empty_frame_in_flight, call_OutboundFrameSend, armed_ok.
    rewrite OutboundFrameSend_run. cbn [ncp posted armed after fst snd].
    fields. rewrite Hit, Z.sub_diag.
    rewrite get_data_len_set_accept_len, get_set_data_len
      by (unfold SPI_HEADER_LENGTH in *; lia).
    repeat split; try done.
    destruct (decide (answer = kThreadError_None)); [done |].
    exact Harmed. }
  split; [apply Inv |]. split; [apply Inv |].
  intros evs.
  pose proof (empty_frame_run evs _ Inv) as Inv'.
  destruct Inv' as (Hs' & Hsd' & Hq' & Hrest).
  split; [exact Hs' |]. split; [exact Hsd' |]. split; [exact Hq' |].
  split.
  { unfold OutboundFrameBegin. unfold_m. rewrite Hs'. reflexivity. }
  intros received len r Hcb.
  refine (proj1 (empty_frame_callback _ received len r _ Hcb)).
  unfold empty_frame_in_flight. tauto.
Qed.

(** ** Construction *)

(** What the constructor does establish. *)
Lemma NcpSpi_ctor_establishes raw :
  sized raw ->
  let r := NcpSpi_ctor raw in
  sized (after r)
  /\ mSending (after r) = false
  /\ flag_bytes (after r) = (SPI_RESET_FLAG, SPI_RESET_FLAG)
  /\ spi_header_get_accept_len (mSendFrame (after r))
     = sizeof_mReceiveFrame - SPI_HEADER_LENGTH
  /\ calls r
     = [SpiSlaveEnable;
        SpiSlavePrepareTransaction
          (Transaction EmptySendFrame SPI_HEADER_LENGTH
             EmptyReceiveFrame SPI_HEADER_LENGTH true)].
Proof.
  intros (H1 & H2 & H3 & H4). cbv zeta. rewrite NcpSpi_ctor_run.
  cbn [after calls fst snd]. unfold flag_bytes, sized. fields.
  unfold SPI_HEADER_LENGTH in *.
  rewrite !length_set_flag_byte, length_set_accept_len,
    length_set_flag_byte, !length_inserts.
  rewrite get_flag_set_accept_len.
  rewrite !get_flag_set_flag by (rewrite length_inserts; lia).
  rewrite get_set_accept_len
    by (rewrite length_set_flag_byte, length_inserts; lia).
  rewrite u16_small by lia.
  repeat split; done.
Qed.

(** What the two calls of [memset] reach: the header bytes after the flag
    byte are zero up to the size of the constant's type, and as the
    constructor found them from there on; in the send buffer the two bytes
    of the accept length are then assigned. *)
Lemma NcpSpi_ctor_memset raw (i : nat) :
  sized raw -> (3 <= i < 5)%nat ->
  let r := NcpSpi_ctor raw in
  (Z.of_nat i < sizeof_SPI_HEADER_LENGTH ->
     byte_at (mSendFrame (after r)) i = 0
     /\ byte_at (mEmptySendFrame (after r)) i = 0)
  /\ (sizeof_SPI_HEADER_LENGTH <= Z.of_nat i ->
        byte_at (mSendFrame (after r)) i = byte_at (mSendFrame raw) i
        /\ byte_at (mEmptySendFrame (after r)) i
           = byte_at (mEmptySendFrame raw) i).
Proof.
  intros (H1 & H2 & H3 & H4) Hi. cbv zeta. rewrite NcpSpi_ctor_run.
  cbn [after fst snd]. fields.
  unfold spi_header_set_accept_len, spi_header_set_flag_byte. cbv zeta.
  rewrite !byte_at_insert_ne by lia.
  unfold byte_at, SPI_HEADER_LENGTH in *.
  split; intros Hz.
  - rewrite !list_lookup_inserts
      by (rewrite ?length_replicate; lia).
    rewrite Nat.sub_0_r, lookup_replicate_2 by lia. done.
  - rewrite !list_lookup_inserts_ge by (rewrite ?length_replicate; lia).
    done.
Qed.

(** ** More on frame assembly *)

(** X5: [OutboundFrameSize] and [OutboundFrameGetRemaining] only read the
    object.  Both results are 16-bit values and add up to the payload
    capacity modulo 65536; with the write cursor in the payload area they
    are the bytes staged and the capacity less the bytes staged, so they
    add up to the capacity exactly, and nothing remains exactly when the
    cursor is at the end of the send buffer.  With the cursor before the
    payload area the size wraps around. *)
Theorem frame_size_and_remaining s :
  let size := result (OutboundFrameSize s) in
  let remaining := result (OutboundFrameGetRemaining s) in
  (OutboundFrameSize s = (size, s, [])
   /\ OutboundFrameGetRemaining s = (remaining, s, []))
  /\ (0 <= size < 65536 /\ 0 <= remaining < 65536)
  /\ u16 (size + remaining) = payload_capacity
  /\ (cursor_ok s ->
        size = staged s
        /\ remaining = payload_capacity - staged s
        /\ size + remaining = payload_capacity
        /\ 0 <= size <= payload_capacity
        /\ (remaining = 0 <-> mSendFrameIter s = sizeof_mSendFrame))
  /\ (0 <= mSendFrameIter s < SPI_HEADER_LENGTH ->
        size = 65536 + mSendFrameIter s - SPI_HEADER_LENGTH).
Proof.
  cbv zeta.
  split; [split; reflexivity |].
  split; [split; apply u16_range |].
  split.
  { cbn. unfold u16 at 1 3. rewrite Z.add_mod_idemp_r by lia.
    unfold payload_capacity.
    replace (u16 (mSendFrameIter s - SPI_HEADER_LENGTH)
             + (sizeof_mSendFrame - SPI_HEADER_LENGTH
                - u16 (mSendFrameIter s - SPI_HEADER_LENGTH)))
      with (sizeof_mSendFrame - SPI_HEADER_LENGTH) by lia.
    apply Z.mod_small. unfold SPI_HEADER_LENGTH in *. lia. }
  split.
  { intros Hcur.
    rewrite OutboundFrameGetRemaining_capacity by done.
    rewrite OutboundFrameSize_staged by done.
    cbn [result fst].
    unfold cursor_ok, staged, payload_capacity, SPI_HEADER_LENGTH in *.
    repeat split; lia. }
  intros Hlow. cbn. unfold u16, SPI_HEADER_LENGTH in *.
  replace (mSendFrameIter s - 5)
    with (65536 + mSendFrameIter s - 5 + (-1) * 2 ^ 16) by lia.
  rewrite Z.mod_add by lia. apply Z.mod_small. lia.
Qed.

Lemma feed_all s frame :
  sized s -> cursor_ok s ->
  Z.of_nat (length frame) <= payload_capacity - staged s ->
  OutboundFrameFeedData frame (Z.of_nat (length frame)) s
  = (kThreadError_None,
     set_mSendFrameIter (mSendFrameIter s + Z.of_nat (length frame))
       (store SendFrame
          (list_inserts (Z.to_nat (mSendFrameIter s)) frame (mSendFrame s))
          s),
     []).
Proof.
  intros Hsized Hcur Hfit. rewrite feed_ok by done.
  by rewrite Nat2Z.id, take_ge.
Qed.

Lemma feed_all_invariant s frame :
  sized s -> cursor_ok s ->
  Z.of_nat (length frame) <= payload_capacity - staged s ->
  let s' := after (OutboundFrameFeedData frame (Z.of_nat (length frame)) s) in
  sized s' /\ cursor_ok s'
  /\ staged s' = staged s + Z.of_nat (length frame).
Proof.
  intros Hsized Hcur Hfit. cbv zeta.
  split; [by apply feed_ok_sized |].
  rewrite feed_all by done. cbn [after fst snd].
  unfold cursor_ok, staged, payload_capacity, SPI_HEADER_LENGTH in *.
  fields. lia.
Qed.

(** X6: feeds compose.  A feed of no bytes succeeds and changes nothing.
    When two sources fit one after the other, feeding the first and then
    the second leaves the object that one feed of both leaves, with the
    bytes of the first followed by those of the second at the old cursor.
    When the first fits and both together do not, the second feed fails
    and the first stays staged, whereas one feed of both stages nothing. *)
Theorem feeds_compose s a b :
  sized s -> cursor_ok s ->
  let la := Z.of_nat (length a) in
  let lb := Z.of_nat (length b) in
  let r1 := OutboundFrameFeedData a la s in
  let r2 := OutboundFrameFeedData b lb (after r1) in
  let r := OutboundFrameFeedData (a ++ b) (la + lb) s in
  OutboundFrameFeedData [] 0 s = (kThreadError_None, s, [])
  /\ (la + lb <= payload_capacity - staged s ->
        result r1 = kThreadError_None
        /\ result r2 = kThreadError_None
        /\ result r = kThreadError_None
        /\ after r2 = after r
        /\ view (after r2) SendFrame (mSendFrameIter s) (la + lb) = a ++ b)
  /\ (la <= payload_capacity - staged s < la + lb ->
        result r1 = kThreadError_None
        /\ result r2 = kThreadError_Failed
        /\ after r2 = after r1
        /\ view (after r2) SendFrame (mSendFrameIter s) la = a
        /\ result r = kThreadError_Failed
        /\ after r = s).
Proof.
  intros Hsized Hcur. cbv zeta.
  split.
  { change 0 with (Z.of_nat (length (@nil Z))).
    rewrite (feed_all s [])
      by (done || (cbn [length]; unfold cursor_ok, staged,
                     payload_capacity in *; lia)).
    cbn [length list_inserts]. rewrite Z.add_0_r.
    by destruct s. }
  split.
  - intros Hfit.
    destruct (feed_all_invariant s a Hsized Hcur ltac:(lia))
      as (Hsized1 & Hcur1 & Hst1).
    rewrite (feed_all (after _) b) by (done || lia).
    rewrite (feed_all s a) in * by (done || lia).
    replace (Z.of_nat (length a) + Z.of_nat (length b))
      with (Z.of_nat (length (a ++ b))) by (rewrite length_app; lia).
    rewrite (feed_all s (a ++ b)) by (done || rewrite length_app; lia).
    cbn [result after fst snd]. fields.
    assert (Z.to_nat (mSendFrameIter s + Z.of_nat (length a))
            = (length a + Z.to_nat (mSendFrameIter s))%nat) as ->
      by (unfold cursor_ok, SPI_HEADER_LENGTH in Hcur; lia).
    rewrite <- list_inserts_app_l.
    split; [done |]. split; [done |]. split; [done |].
    split.
    { unfold set_mSendFrameIter, store. cbn. f_equal.
      rewrite length_app. lia. }
    unfold view. fields. rewrite Nat2Z.id.
    apply view_inserts.
    destruct Hsized as (Hs & _).
    unfold cursor_ok, staged, payload_capacity, SPI_HEADER_LENGTH in *.
    rewrite length_app in *. lia.
  - intros (Hfit & Hover).
    destruct (feed_all_invariant s a Hsized Hcur Hfit)
      as (Hsized1 & Hcur1 & Hst1).
    rewrite (feed_failed (after _) b) by (done || lia).
    rewrite (feed_failed s (a ++ b)) by (done || lia).
    rewrite (feed_all s a) by done.
    cbn [result after fst snd].
    repeat split.
    unfold view. fields. rewrite Nat2Z.id.
    apply view_inserts.
    destruct Hsized as (Hs & _).
    unfold cursor_ok, staged, payload_capacity, SPI_HEADER_LENGTH in *.
    lia.
Qed.

Lemma feed_chunks_run chunks : forall s,
  sized s -> cursor_ok s ->
  Z.of_nat (length (concat chunks)) <= payload_capacity - staged s ->
  feed_chunks chunks s
  = (replicate (length chunks) kThreadError_None,
     set_mSendFrameIter (mSendFrameIter s + Z.of_nat (length (concat chunks)))
       (store SendFrame
          (list_inserts (Z.to_nat (mSendFrameIter s)) (concat chunks)
             (mSendFrame s)) s),
     []).
Proof.
  induction chunks as [| frame rest IH]; intros s Hsized Hcur Hfit.
  - cbn. rewrite Z.add_0_r. by destruct s.
  - cbn [concat] in Hfit. rewrite length_app in Hfit.
    destruct (feed_all_invariant s frame Hsized Hcur ltac:(lia))
      as (Hsized1 & Hcur1 & Hst1).
    cbn [feed_chunks]. unfold bind at 1.
    specialize (IH _ Hsized1 Hcur1 ltac:(lia)).
    rewrite (feed_all s frame) in * by (done || lia).
    cbn [after fst snd] in IH. unfold bind at 1. rewrite IH.
    cbn [ret concat length replicate app]. fields.
    assert (Z.to_nat (mSendFrameIter s + Z.of_nat (length frame))
            = (length frame + Z.to_nat (mSendFrameIter s))%nat) as ->
      by (unfold cursor_ok, SPI_HEADER_LENGTH in Hcur; lia).
    rewrite <- list_inserts_app_l.
    unfold set_mSendFrameIter, store. cbn. do 2 f_equal. f_equal.
    rewrite length_app. lia.
Qed.

Lemma drop_header_set_accept_len h len :
  drop 5 (spi_header_set_accept_len h len) = drop 5 h.
Proof.
  unfold spi_header_set_accept_len. cbv zeta.
  by rewrite !drop_insert_lt by lia.
Qed.

Lemma drop_header_set_data_len h len :
  drop 5 (spi_header_set_data_len h len) = drop 5 h.
Proof.
  unfold spi_header_set_data_len. cbv zeta.
  by rewrite !drop_insert_lt by lia.
Qed.

Lemma drop_header_set_flag_byte h v :
  drop 5 (spi_header_set_flag_byte h v) = drop 5 h.
Proof.
  unfold spi_header_set_flag_byte. by rewrite drop_insert_lt by lia.
Qed.

(** X7: one frame from beginning to sending.  With no send outstanding and
    chunks that fit the payload capacity together, [OutboundFrameBegin],
    the feeds and [OutboundFrameSend] all succeed (a busy driver included);
    the one call made is the request for a transaction whose output is the
    send buffer, five bytes longer than the payload; the header of the send
    buffer declares the length of the payload and accepts nothing, its flag
    byte is as before, and the chunks stand one after the other just past
    the header.  A send is then outstanding. *)
Theorem send_frame_stages_payload s chunks answer :
  sized s -> mSending s = false ->
  let payload := concat chunks in
  let len := Z.of_nat (length payload) in
  len <= payload_capacity ->
  let r := send_frame chunks answer s in
  result r
  = (kThreadError_None, replicate (length chunks) kThreadError_None,
     if decide (answer = kThreadError_Busy)
     then kThreadError_None else answer)
  /\ calls r
     = [SpiSlavePrepareTransaction
          (Transaction SendFrame (len + SPI_HEADER_LENGTH)
             EmptyReceiveFrame SPI_HEADER_LENGTH true)]
  /\ spi_header_get_data_len (mSendFrame (after r)) = len
  /\ spi_header_get_accept_len (mSendFrame (after r)) = 0
  /\ spi_header_get_flag_byte (mSendFrame (after r))
     = spi_header_get_flag_byte (mSendFrame s)
  /\ view (after r) SendFrame SPI_HEADER_LENGTH len = payload
  /\ mSending (after r) = true
  /\ staged (after r) = len
  /\ sized (after r) /\ cursor_ok (after r).
Proof.
  intros Hsized Hidle. cbv zeta. intros Hfit.
  set (s0 := set_mSendFrameIter SPI_HEADER_LENGTH s).
  assert (sized s0) as Hsized0 by exact Hsized.
  assert (cursor_ok s0) as Hcur0
    by (unfold cursor_ok, s0; cbn; unfold SPI_HEADER_LENGTH in *; lia).
  assert (staged s0 = 0) as Hst0 by (unfold staged, s0; cbn; lia).
  pose proof (feed_chunks_run chunks s0 Hsized0 Hcur0 ltac:(lia)) as Hfeed.
  unfold send_frame, bind.
  rewrite OutboundFrameBegin_run, Hidle. fold s0. cbv beta iota.
  rewrite Hfeed. cbv beta iota.
  rewrite OutboundFrameSend_run. clear Hfeed. subst s0.
  cbn [ret result after calls fst snd app]. fields.
  destruct Hsized as (Hs & Hr & He & Her).
  assert (0 <= Z.of_nat (length (concat chunks)) < 65536) as Hrange
    by (unfold payload_capacity, SPI_HEADER_LENGTH in *; lia).
  replace (SPI_HEADER_LENGTH + Z.of_nat (length (concat chunks))
           - SPI_HEADER_LENGTH)
    with (Z.of_nat (length (concat chunks))) by lia.
  rewrite (u16_small (Z.of_nat (length (concat chunks)))) by done.
  rewrite (u16_small (Z.of_nat (length (concat chunks)) + SPI_HEADER_LENGTH))
    by (unfold payload_capacity, SPI_HEADER_LENGTH in *; lia).
  assert (5 <= length (list_inserts (Z.to_nat SPI_HEADER_LENGTH)
                         (concat chunks) (mSendFrame s)))%nat as Hlen
    by (rewrite length_inserts; unfold SPI_HEADER_LENGTH in *; lia).
  split; [done |]. split; [done |].
  split.
  { rewrite get_data_len_set_accept_len, get_set_data_len by done.
    by apply u16_small. }
  split.
  { by rewrite get_set_accept_len by (rewrite length_set_data_len; lia). }
  split.
  { rewrite get_flag_set_accept_len, get_flag_set_data_len.
    unfold spi_header_get_flag_byte.
    apply byte_at_inserts_lt. unfold SPI_HEADER_LENGTH. lia. }
  split.
  { unfold view. fields.
    change (Z.to_nat SPI_HEADER_LENGTH) with 5%nat.
    rewrite drop_header_set_accept_len, drop_header_set_data_len.
    rewrite Nat2Z.id. apply view_inserts.
    unfold payload_capacity, SPI_HEADER_LENGTH in *. lia. }
  split; [done |].
  split; [unfold staged; cbn; lia |].
  split.
  { unfold sized. fields.
    rewrite length_set_accept_len, length_set_data_len, length_inserts.
    done. }
  unfold cursor_ok. fields.
  unfold payload_capacity, SPI_HEADER_LENGTH in *. lia.
Qed.

(** ** Memory safety over every history *)

Lemma sized_load s b :
  sized s ->
  Z.of_nat (length (load s b))
  = match b with
    | SendFrame => sizeof_mSendFrame
    | ReceiveFrame => sizeof_mReceiveFrame
    | EmptySendFrame | EmptyReceiveFrame => SPI_HEADER_LENGTH
    end.
Proof. intros (H1 & H2 & H3 & H4). by destruct b. Qed.

Lemma fits_sized s s' t : sized s -> sized s' -> fits s t -> fits s' t.
Proof.
  intros Hs Hs'. unfold fits.
  by rewrite !(sized_load s) , !(sized_load s').
Qed.

Lemma received_into_sized t received len s :
  sized s -> sized (received_into t received len s).
Proof.
  intros (H1 & H2 & H3 & H4). unfold received_into, sized.
  destruct (aInputBuf t); cbn [load store]; fields;
    rewrite ?length_inserts; done.
Qed.

Lemma feed_cursor s src n :
  sized s -> cursor_ok s -> 0 <= n ->
  cursor_ok (after (OutboundFrameFeedData src n s)).
Proof.
  intros Hs Hc Hn.
  destruct (Z_lt_le_dec (payload_capacity - staged s) n) as [Hbig | Hfit].
  - by rewrite feed_failed.
  - rewrite feed_ok by done. cbn [after fst snd].
    unfold cursor_ok, staged, payload_capacity, SPI_HEADER_LENGTH in *.
    fields. lia.
Qed.

Lemma send_sized answer s :
  sized s -> sized (after (OutboundFrameSend answer s)).
Proof.
  intros (H1 & H2 & H3 & H4). rewrite OutboundFrameSend_run.
  cbn [after fst snd]. unfold sized. fields.
  by rewrite length_set_accept_len, length_set_data_len.
Qed.

Lemma safe_act y a :
  sized (ncp y) -> cursor_ok (ncp y) -> armed_fits y ->
  sized (ncp (act y a)) /\ cursor_ok (ncp (act y a)) /\ armed_fits (act y a).
Proof.
  intros Hs Hc Hf.
  destruct a as [[received len | |] | frame | message | answer];
    cbn [act].
  - destruct (armed y) as [t |] eqn:Harmed;
      [| cbn [step]; unfold callback; by rewrite Harmed].
    rewrite (transaction_done_run y received len t Harmed).
    set (s1 := received_into t received len (ncp y)).
    set (c := completion_of t len).
    assert (sized s1) as Hs1 by by apply received_into_sized.
    pose proof (received_into_flags t received len (ncp y)) as (Hit & _).
    fold s1 in Hit.
    pose proof (handler_frame s1 c) as (_ & _ & Hit' & _).
    pose proof (handler_sized s1 c Hs1) as Hs'.
    assert (cursor_ok (after (SpiTransactionComplete c s1))) as Hc'
      by (unfold cursor_ok; by rewrite Hit', Hit).
    cbn [ncp]. split; [done |]. split; [done |].
    unfold armed_fits, fits. cbn [armed ncp aOutputBuf aOutputBufLen
      aInputBuf aInputBufLen].
    rewrite !(sized_load _ _ Hs').
    rewrite (OutboundFrameSize_staged _ Hc').
    unfold cursor_ok, staged, SPI_HEADER_LENGTH in *.
    destruct (mSending _ && negb (mHandlingSendDone _)),
      (mHandlingRxFrame (after (SpiTransactionComplete c s1)));
      rewrite ?u16_small by lia; lia.
  - cbn [step]. destruct (posted y) as [| t rest] eqn:Hp; [done |].
    cbn [ncp]. unfold armed_fits. cbn [armed ncp].
    assert (sized (after (run_tasklet t (ncp y)))
            /\ mSendFrameIter (after (run_tasklet t (ncp y)))
               = mSendFrameIter (ncp y)) as (Hs' & Hit).
    { destruct Hs as (H1 & H2 & H3 & H4).
      destruct t; cbn [run_tasklet];
        rewrite ?HandleRxFrame_run, ?HandleSendDone_run;
        cbn [after fst snd]; unfold sized; fields; done. }
    split; [done |]. split; [unfold cursor_ok; by rewrite Hit |].
    unfold armed_fits in Hf. destruct (armed y); [| done].
    by apply (fits_sized (ncp y)).
  - cbn [step ncp]. unfold armed_fits. cbn [armed ncp].
    rewrite OutboundFrameBegin_run.
    destruct (mSending (ncp y)); cbn [after fst snd]; [done |].
    assert (sized (set_mSendFrameIter SPI_HEADER_LENGTH (ncp y))) as Hs'
      by (destruct Hs as (H1 & H2 & H3 & H4); unfold sized; by fields).
    split; [done |].
    split.
    { unfold cursor_ok, SPI_HEADER_LENGTH in *. fields. lia. }
    unfold armed_fits in Hf. destruct (armed y); [| done].
    by apply (fits_sized (ncp y)).
  - cbn [ncp]. unfold armed_fits. cbn [armed ncp].
    pose proof (feed_ok_sized (ncp y) frame (Z.of_nat (length frame)) Hs)
      as Hs'.
    split; [done |].
    split; [apply feed_cursor; (done || lia) |].
    unfold armed_fits in Hf. destruct (armed y); [| done].
    by apply (fits_sized (ncp y)).
  - cbn [ncp]. unfold armed_fits. cbn [armed ncp].
    rewrite OutboundFrameFeedMessage_as_data.
    pose proof (feed_ok_sized (ncp y) message (GetLength message) Hs) as Hs'.
    split; [done |].
    split.
    { apply feed_cursor; [done | done |].
      unfold GetLength. pose proof (u16_range (Z.of_nat (length message))).
      lia. }
    unfold armed_fits in Hf. destruct (armed y); [| done].
    by apply (fits_sized (ncp y)).
  - unfold call_OutboundFrameSend. cbn [ncp]. unfold armed_fits.
    cbn [armed ncp].
    pose proof (send_sized answer (ncp y) Hs) as Hs'.
    split; [done |].
    split.
    { rewrite OutboundFrameSend_run. cbn [after fst snd].
      unfold cursor_ok in *. by fields. }
    destruct (decide (answer = kThreadError_None)).
    + unfold fits. cbn [aOutputBuf aOutputBufLen aInputBuf aInputBufLen].
      rewrite !(sized_load _ _ Hs').
      rewrite (OutboundFrameSize_staged _ Hc).
      unfold cursor_ok, staged, sizeof_mEmptyReceiveFrame,
        SPI_HEADER_LENGTH in *.
      rewrite u16_small by lia. lia.
    + unfold armed_fits in Hf. destruct (armed y); [| done].
      by apply (fits_sized (ncp y)).
Qed.

(** X8: the transport stays inside its arrays.  From an object whose
    arrays have their declared sizes and whose write cursor lies between the
    end of the header and the end of the send buffer, with the transaction
    the driver holds (if any) no longer than the buffers it names, every
    sequence of completed transactions, tasklet runs and calls of the
    assembly interface (feeds of any size, accepted or refused, included)
    keeps all three: the cursor never leaves the send buffer, so no feed
    copies past its end, and every transaction handed to the driver asks
    for at most the bytes its two buffers hold.  The first condition on the
    cursor is what a successful [OutboundFrameBegin] establishes. *)
Theorem transport_stays_in_its_buffers y acts :
  sized (ncp y) -> armed_fits y ->
  (cursor_ok (ncp y)
   \/ mSending (ncp y) = false
      /\ exists rest, acts = Driven CallOutboundFrameBegin :: rest) ->
  let y' := play acts y in
  sized (ncp y') /\ cursor_ok (ncp y') /\ armed_fits y'.
Proof.
  intros Hs Hf Hc. cbv zeta.
  assert (forall acts y,
            sized (ncp y) -> cursor_ok (ncp y) -> armed_fits y ->
            sized (ncp (play acts y)) /\ cursor_ok (ncp (play acts y))
            /\ armed_fits (play acts y)) as Hplay.
  { clear y acts Hs Hf Hc. unfold play.
    induction acts as [| a acts IH]; intros y Hs Hc Hf; cbn [foldl];
      [done |].
    destruct (safe_act y a Hs Hc Hf) as (Hs' & Hc' & Hf'). by apply IH. }
  destruct Hc as [Hc | (Hidle & rest & ->)]; [by apply Hplay |].
  unfold play. cbn [foldl act step]. apply Hplay; cbn [ncp].
  - rewrite OutboundFrameBegin_run, Hidle. cbn [after fst snd].
    destruct Hs as (H1 & H2 & H3 & H4). unfold sized. by fields.
  - rewrite OutboundFrameBegin_run, Hidle. cbn [after fst snd].
    unfold cursor_ok, SPI_HEADER_LENGTH. fields.
    pose proof send_frame_size. unfold SPI_HEADER_LENGTH in *. lia.
  - unfold armed_fits in *. cbn [armed ncp].
    destruct (armed y); [| done].
    rewrite OutboundFrameBegin_run, Hidle. cbn [after fst snd].
    unfold fits in *. by destruct (aOutputBuf t), (aInputBuf t).
Qed.

(** ** A received frame until its delivery *)

Lemma frame_held_act y a :
  frame_held y -> defers a = true ->
  frame_held (act y a)
  /\ mReceiveFrame (ncp (act y a)) = mReceiveFrame (ncp y)
  /\ exists more, posted (act y a) = posted y ++ more.
Proof.
  intros (Hrx & Hin) Hd.
  assert (exists more, posted y = posted y ++ more) as Hsame
    by (exists []; by rewrite app_nil_r).
  destruct a as [[received len | |] | frame | message | answer];
    cbn [act]; try discriminate Hd.
  - destruct (armed y) as [t |] eqn:Harmed.
    { rewrite (transaction_done_run y received len t Harmed).
      set (s1 := received_into t received len (ncp y)).
      set (c := completion_of t len).
      pose proof (received_into_flags t received len (ncp y))
        as (_ & _ & Hf1 & _).
      fold s1 in Hf1.
      assert (mReceiveFrame s1 = mReceiveFrame (ncp y)) as Hrf
        by (subst s1; unfold received_into; by rewrite Hin).
      pose proof (handler_frame s1 c) as (Hrf' & _ & _ & _ & Hrx' & _).
      rewrite Hf1, Hrx in Hrx'. cbn [orb] in Hrx'.
      unfold frame_held. cbn [ncp posted armed aInputBuf].
      rewrite Hrx', Hrf', Hrf.
      split; [done |]. split; [done |]. by eexists. }
    cbn [step]. unfold callback, frame_held. rewrite Harmed.
    split; [by rewrite Harmed |]. by split.
  - cbn [step]. unfold frame_held. cbn [ncp posted armed].
    rewrite OutboundFrameBegin_run.
    destruct (mSending (ncp y)); cbn [after fst snd]; fields;
      (split; [done |]); by split.
  - pose proof (feed_flags frame (Z.of_nat (length frame)) (ncp y))
      as (H1 & _ & _ & _ & H2 & _).
    unfold frame_held. cbn [ncp posted armed]. rewrite H1, H2.
    split; [done |]. by split.
  - rewrite OutboundFrameFeedMessage_as_data.
    pose proof (feed_flags message (GetLength message) (ncp y))
      as (H1 & _ & _ & _ & H2 & _).
    unfold frame_held. cbn [ncp posted armed]. rewrite H1, H2.
    split; [done |]. by split.
  - unfold call_OutboundFrameSend, frame_held. cbn [ncp posted armed].
    rewrite OutboundFrameSend_run. cbn [after fst snd]. fields.
    split; [| by split].
    split; [done |].
    by destruct (decide (answer = kThreadError_None)).
Qed.

Lemma frame_held_play y acts :
  frame_held y -> forallb defers acts = true ->
  frame_held (play acts y)
  /\ mReceiveFrame (ncp (play acts y)) = mReceiveFrame (ncp y)
  /\ exists more, posted (play acts y) = posted y ++ more.
Proof.
  unfold play. revert y.
  induction acts as [| a acts IH]; intros y Hh Hd; cbn [foldl].
  { split; [done |]. split; [done |]. exists []. by rewrite app_nil_r. }
  cbn [forallb] in Hd. apply andb_true_iff in Hd as (Ha & Hd).
  destruct (frame_held_act y a Hh Ha) as (Hh' & Hrf & more & Hp).
  destruct (IH (act y a) Hh' Hd) as (Hh'' & Hrf' & more' & Hp').
  split; [done |]. split; [congruence |].
  exists (more ++ more'). by rewrite Hp', Hp, app_assoc.
Qed.

Lemma lookup_received (l k : list Z) (j : nat) :
  (length k <= length l)%nat -> (j < length k)%nat ->
  list_inserts 0 k l !! j = k !! j.
Proof.
  intros Hk Hj. rewrite list_lookup_inserts by lia. f_equal. lia.
Qed.

(** X9: a frame from the master is delivered as sent, and kept until
    then.  Let the driver hold a transaction whose input is the whole
    receive buffer and whose output is one of the send buffers with a
    header, no receive pending; let the master send a header declaring [n]
    payload bytes, [n] positive, not above the accept length this side
    sent and fitting the receive buffer, followed by those bytes, in a
    transaction that covers them.  Then the handler posts the receive
    tasklet, and whatever comes before that tasklet runs (more
    transactions, with any content, and calls of the assembly interface):
    the receive buffer holds the same bytes, every transaction handed to
    the driver receives into the header-only buffer, the tasklet is still
    posted, and [HandleRxFrame] hands the upper layer the address past the
    header with length [n], where the master's payload bytes are. *)
Theorem received_frame_is_held_and_delivered y t received len acts :
  sized (ncp y) ->
  armed y = Some t ->
  aInputBuf t = ReceiveFrame ->
  aInputBufLen t = sizeof_mReceiveFrame ->
  outbound (aOutputBuf t) = true ->
  SPI_HEADER_LENGTH <= aOutputBufLen t ->
  mHandlingRxFrame (ncp y) = false ->
  let n := spi_header_get_data_len received in
  0 < n ->
  Z.of_nat (length received) = SPI_HEADER_LENGTH + n ->
  SPI_HEADER_LENGTH + n <= len ->
  SPI_HEADER_LENGTH + n <= sizeof_mReceiveFrame ->
  n <= spi_header_get_accept_len (load (ncp y) (aOutputBuf t)) ->
  forallb defers acts = true ->
  let y1 := step y (TransactionDone received len) in
  let y2 := play acts y1 in
  mHandleRxFrame ∈ posted y1
  /\ mHandleRxFrame ∈ posted y2
  /\ frame_held y2
  /\ mReceiveFrame (ncp y2) = mReceiveFrame (ncp y1)
  /\ calls (HandleRxFrame (ncp y2))
     = [HandleReceive ReceiveFrame SPI_HEADER_LENGTH n]
  /\ view (ncp y2) ReceiveFrame SPI_HEADER_LENGTH n
     = drop (Z.to_nat SPI_HEADER_LENGTH) received.
Proof.
  intros Hs Harmed Hin Hinlen Hout Houtlen Hidle n Hn Hlen Hcover Hfit Hacc
    Hd y1 y2.
  destruct Hs as (Hs1 & Hs2 & Hs3 & Hs4).
  set (s1 := received_into t received len (ncp y)).
  set (c := completion_of t len).
  assert (mReceiveFrame s1 = list_inserts 0 received (mReceiveFrame (ncp y)))
    as Hrf1.
  { subst s1. unfold received_into. rewrite Hin, Hinlen. cbn [load store].
    fields. by rewrite take_ge by lia. }
  assert (load s1 (aOutputBuf t) = load (ncp y) (aOutputBuf t)) as Hout1.
  { subst s1. unfold received_into. rewrite Hin.
    by destruct (aOutputBuf t). }
  assert (spi_header_get_data_len (mReceiveFrame s1) = n) as Hdata.
  { rewrite Hrf1. subst n. unfold spi_header_get_data_len, byte_at.
    unfold SPI_HEADER_LENGTH in *.
    by rewrite !lookup_received by lia. }
  assert (detects_rx_frame s1 c = true) as Hdet.
  { apply detects_rx_frame_iff.
    pose proof (received_into_flags t received len (ncp y))
      as (_ & _ & Hf & _).
    fold s1 in Hf.
    unfold header_lengths. subst c. unfold completion_of.
    cbn [aTransactionLength aMISOBufLen aMISOBuf aMOSIBufLen aMOSIBuf
         rx_data_len rx_accept_len].
    rewrite Hin, Hinlen.
    pose proof receive_frame_size.
    rewrite !(proj2 (Z.leb_le _ _)) by (unfold SPI_HEADER_LENGTH in *; lia).
    cbn [rx_data_len rx_accept_len load].
    rewrite Hdata, Hout1, Hf. repeat split; (done || lia). }
  assert (y1 = step y (TransactionDone received len)) as Hy1 by done.
  rewrite (transaction_done_run y received len t Harmed) in Hy1.
  fold s1 c in Hy1.
  pose proof (handler_frame s1 c) as (Hrf' & _ & _ & _ & Hrx' & _).
  rewrite Hdet, orb_true_r in Hrx'.
  assert (frame_held y1) as Hheld.
  { rewrite Hy1. unfold frame_held. cbn [ncp armed aInputBuf].
    by rewrite Hrx'. }
  assert (mHandleRxFrame ∈ posted y1) as Hposted.
  { rewrite Hy1. cbn [posted]. rewrite handler_posts, Hdet.
    apply elem_of_app. right. apply elem_of_app. left. by left. }
  destruct (frame_held_play y1 acts Hheld Hd) as (Hheld2 & Hrf2 & more & Hp).
  fold y2 in Hheld2, Hrf2, Hp.
  assert (mReceiveFrame (ncp y1) = mReceiveFrame s1) as Hrfy1
    by (rewrite Hy1; cbn [ncp]; done).
  split; [done |].
  split; [rewrite Hp; apply elem_of_app; by left |].
  split; [done |]. split; [done |].
  split.
  { rewrite HandleRxFrame_run. cbn [calls snd].
    by rewrite Hrf2, Hrfy1, Hdata. }
  unfold view. cbn [load]. rewrite Hrf2, Hrfy1, Hrf1.
  unfold SPI_HEADER_LENGTH in *.
  apply list_eq. intros j.
  destruct (decide (j < Z.to_nat n)%nat) as [Hj | Hj].
  - rewrite lookup_take_lt, !lookup_drop by lia.
    by rewrite lookup_received by lia.
  - rewrite lookup_take_ge by lia. symmetry.
    apply lookup_ge_None. rewrite length_drop. lia.
Qed.

(** ** A sent frame until its confirmation *)

(** X10: a frame that the master takes is confirmed once, and the send
    path is free again.  With a payload of [L] bytes staged ([L]
    positive) and no send outstanding, let [OutboundFrameSend] hand the
    frame to the driver, and let the master run a transaction that covers
    header and payload and whose own header accepts at least [L] bytes.
    Until then [OutboundFrameBegin] answers busy.  The handler posts the
    send-done tasklet and nothing else, and prepares the header-only send
    buffer, the flag asking for a transaction off: the frame is not offered
    again.  [OutboundFrameBegin] still answers busy until the tasklet
    runs; [HandleSendDone] notifies the upper layer once that there is
    space, and after it [OutboundFrameBegin] succeeds. *)
Theorem sent_frame_is_confirmed y received len :
  sized (ncp y) -> cursor_ok (ncp y) ->
  mSending (ncp y) = false -> mHandlingSendDone (ncp y) = false ->
  let L := staged (ncp y) in
  0 < L ->
  SPI_HEADER_LENGTH <= Z.of_nat (length received) ->
  L <= spi_header_get_accept_len received ->
  SPI_HEADER_LENGTH + L <= len ->
  let y1 := call_OutboundFrameSend kThreadError_None y in
  let y2 := step y1 (TransactionDone received len) in
  let r := HandleSendDone (ncp y2) in
  result (OutboundFrameBegin (ncp y1)) = kThreadError_Busy
  /\ posted y2 = posted y ++ [mHandleSendDone]
  /\ (exists t, armed y2 = Some t
        /\ aOutputBuf t = EmptySendFrame
        /\ aOutputBufLen t = SPI_HEADER_LENGTH
        /\ aRequestTransactionFlag t = false)
  /\ result (OutboundFrameBegin (ncp y2)) = kThreadError_Busy
  /\ calls r = [HandleSpaceAvailableInTxBuffer]
  /\ mSending (after r) = false
  /\ mHandlingSendDone (after r) = false
  /\ result (OutboundFrameBegin (after r)) = kThreadError_None.
Proof.
  intros Hs Hc Hidle Hnd L HL Hhdr Hacc Hcover y1 y2 r.
  pose proof Hs as (Hs1 & Hs2 & Hs3 & Hs4).
  pose proof send_frame_size as Hsz.
  assert (u16 L = L) as HuL.
  { apply u16_small. subst L.
    unfold staged, cursor_ok, SPI_HEADER_LENGTH in *. lia. }
  set (t := Transaction SendFrame
              (u16 (result (OutboundFrameSize (ncp y)) + SPI_HEADER_LENGTH))
              EmptyReceiveFrame sizeof_mEmptyReceiveFrame true).
  assert (armed y1 = Some t) as Harmed by done.
  assert (ncp y1
          = set_mSending true
              (store SendFrame
                 (spi_header_set_accept_len
                    (spi_header_set_data_len (mSendFrame (ncp y)) L) 0)
                 (ncp y))) as Hn1.
  { subst y1. unfold call_OutboundFrameSend. cbn [ncp].
    rewrite OutboundFrameSend_run. cbn [after fst snd].
    fold (staged (ncp y)). fold L. by rewrite HuL. }
  assert (posted y1 = posted y) as Hp1 by done.
  assert (aOutputBufLen t = L + SPI_HEADER_LENGTH) as Hlen1.
  { subst t. cbn [aOutputBufLen]. rewrite OutboundFrameSize_staged by done.
    fold L. apply u16_small. subst L.
    unfold staged, cursor_ok, SPI_HEADER_LENGTH in *. lia. }
  set (s1 := received_into t received len (ncp y1)).
  set (c := completion_of t len).
  pose proof (received_into_flags t received len (ncp y1))
    as (_ & Hsend1 & _ & Hsd1).
  fold s1 in Hsend1, Hsd1.
  assert (mSendFrame s1 = mSendFrame (ncp y1)) as Hsf1 by done.
  assert (spi_header_get_accept_len (mEmptyReceiveFrame s1)
          = spi_header_get_accept_len received) as Hacc1.
  { subst s1. unfold received_into, t. cbn [aInputBuf aInputBufLen load store].
    fields. rewrite Hn1. fields.
    unfold sizeof_mEmptyReceiveFrame, SPI_HEADER_LENGTH in *.
    replace (Z.to_nat (Z.min 5 len)) with 5%nat by lia.
    unfold spi_header_get_accept_len, byte_at.
    rewrite !lookup_received by (rewrite length_take; lia).
    by rewrite !lookup_take_lt by lia. }
  assert (spi_header_get_data_len (mSendFrame s1) = L) as Hdata1.
  { rewrite Hsf1, Hn1. fields.
    rewrite get_data_len_set_accept_len, get_set_data_len; [done |].
    unfold SPI_HEADER_LENGTH in *. lia. }
  assert (spi_header_get_accept_len (mSendFrame s1) = 0) as Hacc0.
  { rewrite Hsf1, Hn1. fields. rewrite get_set_accept_len; [done |].
    rewrite length_set_data_len. unfold SPI_HEADER_LENGTH in *. lia. }
  assert (header_lengths s1 c
          = Lengths (spi_header_get_data_len (mEmptyReceiveFrame s1)) 0 L
              (spi_header_get_accept_len received)) as Hl.
  { unfold header_lengths. subst c. unfold completion_of.
    cbn [aTransactionLength aMISOBufLen aMISOBuf aMOSIBufLen aMOSIBuf].
    rewrite Hlen1. subst t. cbn [aOutputBuf aInputBuf aInputBufLen].
    rewrite !(proj2 (Z.leb_le _ _))
      by (unfold sizeof_mEmptyReceiveFrame, SPI_HEADER_LENGTH in *; lia).
    cbn [rx_data_len rx_accept_len tx_data_len tx_accept_len load].
    by rewrite Hdata1, Hacc0, Hacc1. }
  assert (detects_send_done s1 c = true) as Hsd.
  { apply detects_send_done_iff. cbv zeta. rewrite Hl.
    cbn [tx_data_len tx_accept_len]. rewrite Hsend1, Hsd1, Hn1.
    subst c. cbn [aTransactionLength completion_of]. fields.
    repeat split; (done || lia). }
  assert (detects_rx_frame s1 c = false) as Hrx.
  { apply not_true_is_false. intros Hdet.
    apply detects_rx_frame_iff in Hdet. cbv zeta in Hdet. rewrite Hl in Hdet.
    cbn [rx_data_len rx_accept_len] in Hdet. lia. }
  assert (y2 = step y1 (TransactionDone received len)) as Hy2 by done.
  rewrite (transaction_done_run y1 received len t Harmed) in Hy2.
  fold s1 c in Hy2.
  pose proof (handler_frame s1 c) as (_ & _ & _ & Hsend' & _ & Hsd').
  rewrite Hsd, orb_true_r in Hsd'.
  assert (mSending (ncp y1) = true) as Hsend by (rewrite Hn1; by fields).
  rewrite Hsend1, Hsend in Hsend'.
  split; [by rewrite OutboundFrameBegin_run, Hsend |].
  split; [by rewrite Hy2; cbn [posted]; rewrite handler_posts, Hsd, Hrx, Hp1 |].
  split.
  { rewrite Hy2. cbn [armed]. eexists. split; [done |].
    cbn [aOutputBuf aOutputBufLen aRequestTransactionFlag].
    by rewrite Hsend', Hsd'. }
  assert (mSending (ncp y2) = true) as Hsend2 by (by rewrite Hy2).
  split; [by rewrite OutboundFrameBegin_run, Hsend2 |].
  subst r. rewrite HandleSendDone_run. cbn [calls after fst snd].
  rewrite OutboundFrameBegin_run. by fields.
Qed.

(** X11: an unconfirmed frame is offered again, as it was.  With a send
    outstanding and its completion not yet detected, a run of the handler
    that does not post the send-done tasklet (the master accepted too
    little, the transaction was cut short, or the buffer that went out was
    the header-only one) prepares the send buffer again, header and staged
    payload long, the flag asking for a transaction on; the data length in
    its header, every byte of its payload and the write cursor are as
    before, the send is still outstanding and [OutboundFrameBegin] still
    answers busy.  A transaction too short for the header and the payload
    declared in the buffer that went out never posts the tasklet. *)
Theorem unconfirmed_frame_is_offered_again s c :
  sized s -> cursor_ok s ->
  mSending s = true -> mHandlingSendDone s = false ->
  let r := SpiTransactionComplete c s in
  (aTransactionLength c
   < SPI_HEADER_LENGTH + spi_header_get_data_len (load s (aMISOBuf c)) ->
   Post mHandleSendDone ∉ calls r)
  /\ (Post mHandleSendDone ∉ calls r ->
      (exists t, prepared (calls r) = [t]
         /\ aOutputBuf t = SendFrame
         /\ aOutputBufLen t = staged s + SPI_HEADER_LENGTH
         /\ aRequestTransactionFlag t = true)
      /\ spi_header_get_data_len (mSendFrame (after r))
         = spi_header_get_data_len (mSendFrame s)
      /\ drop (Z.to_nat SPI_HEADER_LENGTH) (mSendFrame (after r))
         = drop (Z.to_nat SPI_HEADER_LENGTH) (mSendFrame s)
      /\ mSendFrameIter (after r) = mSendFrameIter s
      /\ mSending (after r) = true
      /\ mHandlingSendDone (after r) = false
      /\ result (OutboundFrameBegin (after r)) = kThreadError_Busy).
Proof.
  intros Hs Hc Hsend Hnd r.
  split.
  { intros Hshort Hpost. apply handler_posts_send_done in Hpost.
    apply detects_send_done_iff in Hpost as (_ & _ & Hpos & Hle & _).
    revert Hpos Hle. unfold header_lengths.
    destruct (SPI_HEADER_LENGTH <=? aTransactionLength c); [| cbn; lia].
    destruct (SPI_HEADER_LENGTH <=? aMISOBufLen c),
      (SPI_HEADER_LENGTH <=? aMOSIBufLen c); cbn; lia. }
  intros Hno.
  assert (detects_send_done s c = false) as Hsd.
  { apply not_true_is_false. intros H. apply Hno.
    by apply handler_posts_send_done. }
  pose proof (handler_frame s c) as (_ & _ & Hit & Hsend' & _ & Hnd').
  pose proof (handler_prepares s c) as (Hprep & _).
  pose proof (handler_send_headers s c SendFrame eq_refl) as (_ & Hdata & _).
  cbv zeta in *. fold r in Hit, Hsend', Hnd', Hprep, Hdata.
  rewrite Hsend in Hsend'. rewrite Hnd, Hsd in Hnd'. cbn [orb] in Hnd'.
  assert (cursor_ok (after r)) as Hc'
    by (unfold cursor_ok; by rewrite Hit).
  split.
  { eexists. split; [exact Hprep |].
    cbn [aOutputBuf aOutputBufLen aRequestTransactionFlag].
    rewrite Hsend', Hnd'. cbn [andb negb].
    rewrite OutboundFrameSize_staged by done.
    split; [done |]. split; [| done].
    unfold staged. rewrite Hit.
    apply u16_small. pose proof send_frame_size.
    unfold cursor_ok, SPI_HEADER_LENGTH in *. lia. }
  split; [done |].
  split.
  { subst r. rewrite SpiTransactionComplete_run. cbn [after fst snd].
    rewrite Hsd. unfold SPI_HEADER_LENGTH.
    destruct (detects_rx_frame s c), (clears_reset_flag c);
      destruct s as [sf rf esf erf it [] [] []]; try discriminate; fields;
      by rewrite ?drop_header_set_accept_len, ?drop_header_set_flag_byte. }
  split; [done |]. split; [done |]. split; [done |].
  by rewrite OutboundFrameBegin_run, Hsend'.
Qed.

(** ** The first transaction *)

(** X12: what the first transaction after construction can do.  Over
    storage of the declared sizes, with the size of the constant's type at
    least three, the header-only send buffer goes out first and carries
    the reset flag and an accept length of zero.  So whatever the master
    sends in that transaction, and however long it is, no tasklet is posted
    and the receive buffer is not written; the reset flag of both send
    headers is cleared exactly when at least one byte was clocked.  If the
    storage had no receive marked pending, the next transaction offers the
    header-only send buffer again, now accepting the capacity of the
    receive buffer, and receives into the whole receive buffer. *)
Theorem first_transaction_after_construction raw received len :
  sized raw -> 3 <= sizeof_SPI_HEADER_LENGTH ->
  let r0 := NcpSpi_ctor raw in
  let y0 := foldl absorb (System (after r0) [] None) (calls r0) in
  let y1 := step y0 (TransactionDone received len) in
  armed y0 = Some (Transaction EmptySendFrame SPI_HEADER_LENGTH
                     EmptyReceiveFrame SPI_HEADER_LENGTH true)
  /\ spi_header_get_accept_len (mEmptySendFrame (ncp y0)) = 0
  /\ flag_bytes (ncp y0) = (SPI_RESET_FLAG, SPI_RESET_FLAG)
  /\ posted y1 = []
  /\ mReceiveFrame (ncp y1) = mReceiveFrame raw
  /\ flag_bytes (ncp y1)
     = (if 1 <=? len then (0, 0) else (SPI_RESET_FLAG, SPI_RESET_FLAG))
  /\ (mHandlingRxFrame raw = false ->
      armed y1 = Some (Transaction EmptySendFrame SPI_HEADER_LENGTH
                         ReceiveFrame sizeof_mReceiveFrame false)
      /\ spi_header_get_accept_len (mEmptySendFrame (ncp y1))
         = sizeof_mReceiveFrame - SPI_HEADER_LENGTH).
Proof.
  intros Hraw Hsz r0 y0 y1.
  pose proof (NcpSpi_ctor_establishes raw Hraw)
    as (Hs0 & Hsend0 & Hflags0 & _ & Hcalls0).
  cbv zeta in *. fold r0 in Hs0, Hsend0, Hflags0, Hcalls0.
  set (t0 := Transaction EmptySendFrame SPI_HEADER_LENGTH
               EmptyReceiveFrame SPI_HEADER_LENGTH true).
  assert (y0 = System (after r0) [] (Some t0)) as Hy0
    by (subst y0; by rewrite Hcalls0).
  assert (spi_header_get_accept_len (mEmptySendFrame (after r0)) = 0)
    as Hacc0.
  { destruct Hraw as (H1 & H2 & H3 & H4).
    subst r0. rewrite NcpSpi_ctor_run. cbn [after fst snd]. fields.
    rewrite get_accept_len_set_flag_byte.
    unfold spi_header_get_accept_len, byte_at, SPI_HEADER_LENGTH in *.
    rewrite !list_lookup_inserts by (rewrite ?length_replicate; lia).
    by rewrite !lookup_replicate_2 by lia. }
  assert (mReceiveFrame (after r0) = mReceiveFrame raw
          /\ mHandlingRxFrame (after r0) = mHandlingRxFrame raw)
    as (Hrf0 & Hrx0)
    by (subst r0; by rewrite NcpSpi_ctor_run).
  assert (armed y0 = Some t0) as Harmed by by rewrite Hy0.
  set (s1 := received_into t0 received len (ncp y0)).
  set (c := completion_of t0 len).
  assert (y1 = step y0 (TransactionDone received len)) as Hy1 by done.
  rewrite (transaction_done_run y0 received len t0 Harmed) in Hy1.
  fold s1 c in Hy1.
  pose proof (received_into_flags t0 received len (ncp y0))
    as (_ & Hsend1 & Hrx1 & _).
  fold s1 in Hsend1, Hrx1.
  assert (ncp y0 = after r0) as Hn0 by by rewrite Hy0.
  assert (mSendFrame s1 = mSendFrame (after r0)
          /\ mEmptySendFrame s1 = mEmptySendFrame (after r0)
          /\ mReceiveFrame s1 = mReceiveFrame (after r0))
    as (Hsf1 & Hesf1 & Hrf1) by (subst s1; by rewrite Hn0).
  assert (sized s1) as Hs1
    by (subst s1; apply received_into_sized; by rewrite Hn0).
  rewrite Hn0 in Hsend1, Hrx1.
  assert (detects_send_done s1 c = false) as Hsd.
  { apply not_true_is_false. intros H.
    apply detects_send_done_iff in H as (H & _). congruence. }
  assert (detects_rx_frame s1 c = false) as Hrx.
  { apply not_true_is_false. intros H.
    apply detects_rx_frame_iff in H as (_ & Hpos & _ & Hle).
    revert Hpos Hle. unfold header_lengths.
    destruct (SPI_HEADER_LENGTH <=? aTransactionLength c); [| cbn; lia].
    subst c. cbn [completion_of aMISOBufLen aMISOBuf aMOSIBufLen aMOSIBuf].
    unfold t0. cbn [aOutputBufLen aOutputBuf aInputBufLen aInputBuf].
    cbn [Z.leb SPI_HEADER_LENGTH Z.compare Pos.compare Pos.compare_cont
         rx_data_len rx_accept_len load].
    rewrite Hesf1, Hacc0. lia. }
  pose proof (handler_frame s1 c) as (Hrf' & _ & _ & Hsend' & Hrx' & _).
  pose proof (handler_send_headers s1 c SendFrame eq_refl) as (_ & _ & Hf1).
  pose proof (handler_send_headers s1 c EmptySendFrame eq_refl)
    as (_ & _ & Hf2).
  pose proof (handler_accept_len s1 c Hs1) as Hacc'.
  cbv zeta in *. cbn [load] in Hf1, Hf2.
  rewrite Hsend1, Hsend0 in Hsend'.
  rewrite Hrx, orb_false_r, Hrx1, Hrx0 in Hrx'.
  rewrite Hsend' in Hacc'. cbn [andb load] in Hacc'.
  destruct Hs1 as (Hl1 & _ & Hl3 & _).
  split; [done |]. split; [by rewrite Hn0 |]. split; [by rewrite Hn0 |].
  split; [by rewrite Hy1; cbn [posted]; rewrite handler_posts, Hsd, Hrx |].
  split; [by rewrite Hy1; cbn [ncp]; rewrite Hrf', Hrf1 |].
  split.
  { rewrite Hy1. cbn [ncp]. unfold flag_bytes. rewrite Hf1, Hf2.
    unfold flag_bytes in Hflags0.
    apply pair_equal_spec in Hflags0 as (Hg1 & Hg2).
    unfold clears_reset_flag. subst c.
    cbn [completion_of aTransactionLength aMISOBufLen].
    unfold t0. cbn [aOutputBufLen].
    replace (1 <=? SPI_HEADER_LENGTH) with true by done.
    rewrite andb_true_r, Hsf1, Hesf1.
    pose proof send_frame_size. destruct Hs0 as (Hl1' & _ & Hl3' & _).
    unfold SPI_HEADER_LENGTH in *.
    destruct (1 <=? len); [| by rewrite Hg1, Hg2].
    by rewrite !get_flag_set_flag by lia. }
  intros Hnone. rewrite Hnone in Hrx'.
  rewrite Hrx' in Hacc'.
  split; [| by rewrite Hy1].
  rewrite Hy1. cbn [armed]. rewrite Hsend', Hrx'. cbn [andb].
  pose proof receive_frame_size.
  by rewrite u16_small by (unfold SPI_HEADER_LENGTH in *; lia).
Qed.

End Sizes.

End Transport.

(** * The properties at work

    Buffers of 69 bytes; the constant [SPI_HEADER_LENGTH] has type [int],
    so [sizeof] of it is four. *)

(** The bounds on the buffer sizes, and the sizes of [fresh_object]. *)
Lemma sizes_69 : SPI_HEADER_LENGTH <= 69 <= 65535.
Proof. unfold SPI_HEADER_LENGTH. lia. Defined.

Lemma sized_fresh_object : sized 69 69 fresh_object.
Proof. repeat split. Defined.

(** The objects of the examples are states of the transport: construction
    over zeroed storage and [OutboundFrameBegin] give [fresh_object]; the
    first transaction and a feed of 30 bytes then give [staged_object], and
    [OutboundFrameSend] gives [in_flight_object]. *)
Example fresh_object_constructed :
  let r := NcpSpi_ctor 69 4 zeroed_storage in
  after (OutboundFrameBegin (after r)) = fresh_object
  /\ prepared (calls r) = [Transaction EmptySendFrame 5 EmptyReceiveFrame 5 true].
Proof. vm_compute. split; reflexivity. Qed.

Example staged_object_reached :
  let s := after (SpiTransactionComplete 69 header_exchange fresh_object) in
  after (OutboundFrameFeedData 69 (replicate 30 7) 30 s) = staged_object.
Proof. vm_compute. reflexivity. Qed.

Example in_flight_object_reached :
  after (OutboundFrameSend kThreadError_Busy staged_object) = in_flight_object.
Proof. vm_compute. reflexivity. Qed.

(** C5: the constructor run a second time, over the object it built the
    first time, with buffers of 300 bytes, after a frame of 256 bytes has
    been fed and sent.  It clears [mSending], sets the reset flag in both
    send buffers, sets the accept length of the send buffer to the payload
    capacity of the receive buffer, enables the driver and prepares the
    first transaction on the two header-only buffers with the flag that
    forces an interrupt; but [memset] is given the size of the type of
    [SPI_HEADER_LENGTH], four, and not the five bytes of the header, so the
    fifth header byte of the send buffer is left as found and its header
    still declares 256 bytes of data.  Over storage every byte of which is
    0xFF, the fifth header byte of both send buffers stays 0xFF, and the
    header that goes out first declares 0xFF00 bytes of data. *)
Theorem constructor_leaves_fifth_header_byte :
  let first := after (NcpSpi_ctor 300 4 zeroed_storage_300) in
  let begun := after (OutboundFrameBegin first) in
  let fed := after (OutboundFrameFeedData 300 (replicate 256 7) 256 begun) in
  let sent := after (OutboundFrameSend kThreadError_None fed) in
  let again := NcpSpi_ctor 300 4 sent in
  let dirty := NcpSpi_ctor 69 4 used_storage in
  (sized 300 300 sent
   /\ mSending (after again) = false
   /\ flag_bytes (after again) = (SPI_RESET_FLAG, SPI_RESET_FLAG)
   /\ spi_header_get_accept_len (mSendFrame (after again))
      = 300 - SPI_HEADER_LENGTH
   /\ calls again
      = [SpiSlaveEnable;
         SpiSlavePrepareTransaction
           (Transaction EmptySendFrame SPI_HEADER_LENGTH
              EmptyReceiveFrame SPI_HEADER_LENGTH true)])
  /\ (take 5 (mSendFrame sent) = [0x80; 0; 0; 0; 1]
      /\ take 5 (mSendFrame (after again)) = [0x80; 39; 1; 0; 1]
      /\ spi_header_get_data_len (mSendFrame (after again)) = 256)
  /\ (mEmptySendFrame used_storage = [0xFF; 0xFF; 0xFF; 0xFF; 0xFF]
      /\ take 5 (mSendFrame (after dirty)) = [0x80; 64; 0; 0; 0xFF]
      /\ mEmptySendFrame (after dirty) = [0x80; 0; 0; 0; 0xFF]
      /\ spi_header_get_data_len (mSendFrame (after dirty)) = 0xFF00
      /\ spi_header_get_data_len (mEmptySendFrame (after dirty)) = 0xFF00).
Proof.
  cbv zeta.
  set (sent := after (OutboundFrameSend kThreadError_None _)).
  assert (SPI_HEADER_LENGTH <= 300 <= 65535) as Hsize
    by (unfold SPI_HEADER_LENGTH; lia).
  assert (sized 300 300 sent) as Hsized by (vm_compute; repeat split).
  split.
  { split; [exact Hsized |].
    pose proof (NcpSpi_ctor_establishes 300 300 4 Hsize Hsize sent Hsized)
      as (_ & H). exact H. }
  split; vm_compute; repeat split.
Qed.

(** C6, as stated: the length of the buffer received into does not decide.
    After a transaction of five bytes whose output side held no byte, while
    its input side held five, the reset flag is still set in both send
    buffers; and after one whose input side held no byte, while its output
    side held five, both flag bytes are zero. *)
Lemma reset_flag_received_side_counterexample :
  let kept := SpiTransactionComplete 69 no_output_exchange fresh_object in
  let cleared := SpiTransactionComplete 69 no_input_exchange fresh_object in
  sized 69 69 fresh_object
  /\ reset_flag_set (mSendFrame fresh_object) = true
  /\ reset_flag_set (mEmptySendFrame fresh_object) = true
  /\ (1 <= aTransactionLength no_output_exchange
      /\ 1 <= aMOSIBufLen no_output_exchange)
  /\ flag_bytes (after kept) = (SPI_RESET_FLAG, SPI_RESET_FLAG)
  /\ reset_flag_set (mSendFrame (after kept)) = true
  /\ reset_flag_set (mEmptySendFrame (after kept)) = true
  /\ aMOSIBufLen no_input_exchange < 1
  /\ flag_bytes (after cleared) = (0, 0).
Proof.
  cbv zeta. split; [exact sized_fresh_object |].
  vm_compute. repeat split; intros; discriminate.
Qed.

(** The first transaction after construction, five bytes long on both
    sides, clears the reset flag. *)
Lemma reset_flag_cleared_iff_witness :
  flag_bytes (after (SpiTransactionComplete 69 header_exchange fresh_object))
  = (0, 0).
Proof.
  destruct (reset_flag_cleared_iff 69 69 sizes_69 sizes_69
              fresh_object header_exchange sized_fresh_object) as (H & _).
  apply H. vm_compute. split; discriminate.
Defined.

(** With no receive pending, the transaction prepared after the first one
    takes the receive buffer at its 69 bytes and advertises 64. *)
Lemma next_transaction_inbound_witness :
  let r := SpiTransactionComplete 69 header_exchange fresh_object in
  exists t,
    prepared (calls r) = [t]
    /\ aInputBuf t = ReceiveFrame
    /\ aInputBufLen t = 69
    /\ spi_header_get_accept_len (load (after r) (aOutputBuf t)) = 64.
Proof.
  destruct (next_transaction_inbound 69 69 sizes_69 sizes_69
              fresh_object header_exchange sized_fresh_object)
    as (t & Hp & _ & _ & Hidle).
  exists t. split; [exact Hp |]. apply Hidle. reflexivity.
Defined.

(** A frame of 30 bytes that the master did not accept goes out again: 35
    bytes of the send buffer, with more data announced. *)
Lemma next_transaction_outbound_witness :
  let r := SpiTransactionComplete 69 refused_exchange in_flight_object in
  exists t,
    prepared (calls r) = [t]
    /\ aOutputBuf t = SendFrame
    /\ aOutputBufLen t = 35
    /\ aRequestTransactionFlag t = true.
Proof.
  assert (cursor_ok 69 in_flight_object) as Hcur
    by (vm_compute; split; discriminate).
  destruct (next_transaction_outbound 69 69 sizes_69
              in_flight_object refused_exchange)
    as (t & Hp & _ & _ & Hmore & _ & Hflag).
  exists t. split; [exact Hp |].
  destruct (Hmore eq_refl) as (Hb & _ & Hl).
  split; [exact Hb |]. split; [exact (proj2 (Hl Hcur)) | exact Hflag].
Defined.

(** Sending the 30 bytes staged, while the driver is busy. *)
Lemma OutboundFrameSend_spec_witness :
  let r := OutboundFrameSend kThreadError_Busy staged_object in
  spi_header_get_data_len (mSendFrame (after r)) = 30
  /\ spi_header_get_accept_len (mSendFrame (after r)) = 0
  /\ mSending (after r) = true
  /\ calls r
     = [SpiSlavePrepareTransaction
          (Transaction SendFrame 35 EmptyReceiveFrame 5 true)]
  /\ result r = kThreadError_None.
Proof.
  assert (sized 69 69 staged_object) as Hsized by (repeat split).
  destruct (OutboundFrameSend_spec 69 69 sizes_69
              staged_object kThreadError_Busy Hsized)
    as (_ & _ & Hd & Ha & _ & Hs & _ & Hc & Hbusy & _).
  split; [exact Hd |]. split; [exact Ha |]. split; [exact Hs |].
  split; [exact Hc |]. apply Hbusy. reflexivity.
Defined.

(** The feeds of 100 bytes and of 30 then 40 bytes into 64 bytes of
    payload. *)
Lemma OutboundFrameFeedData_capacity_witness :
  let r1 := OutboundFrameFeedData 69 (replicate 30 1) 30 idle_object in
  let r2 := OutboundFrameFeedData 69 (replicate 40 2) 40 (after r1) in
  result (OutboundFrameFeedData 69 (replicate 100 3) 100 idle_object)
  = kThreadError_Failed
  /\ result r1 = kThreadError_None
  /\ result r2 = kThreadError_Failed
  /\ after r2 = after r1
  /\ staged (after r2) = 30
  /\ view (after r2) SendFrame SPI_HEADER_LENGTH 30 = replicate 30 1.
Proof.
  assert (sized 69 69 idle_object) as Hsized by (repeat split).
  assert (cursor_ok 69 idle_object) as Hcur
    by (vm_compute; split; discriminate).
  assert (0 <= 0) as Hpos by (vm_compute; discriminate).
  destruct (OutboundFrameFeedData_capacity 69 69 sizes_69 sizes_69
              idle_object [] 0 Hsized Hcur Hpos)
    as (_ & _ & _ & _ & Hscenario).
  destruct (Hscenario eq_refl eq_refl) as (Hbig & Htwo).
  split; [apply Hbig |].
  apply (Htwo (replicate 30 1) (replicate 40 2)); reflexivity.
Defined.

(** A send right after construction, nothing staged: after the history of
    the examples the transport is still sending and refuses a new frame. *)
Lemma empty_frame_send_never_completes_witness :
  let y := run 69 some_history
             (call_OutboundFrameSend kThreadError_Busy fresh_system) in
  mSending (ncp y) = true
  /\ mHandlingSendDone (ncp y) = false
  /\ result (OutboundFrameBegin (ncp y)) = kThreadError_Busy.
Proof.
  assert (mHandleSendDone ∉ posted fresh_system) as Hq
    by apply not_elem_of_nil.
  destruct (empty_frame_send_never_completes 69 69 sizes_69 sizes_69
              fresh_system kThreadError_Busy sized_fresh_object
              eq_refl eq_refl Hq eq_refl eq_refl)
    as (_ & _ & Hrun).
  destruct (Hrun some_history) as (Hs & Hsd & _ & Hb & _).
  split; [exact Hs |]. split; [exact Hsd | exact Hb].
Defined.

(** ** The further properties at work *)

(** The transport of the examples is reached from [fresh_system] by the
    first transaction, and a feed of 30 bytes then stages them. *)
Example listening_system_reached :
  step 69 fresh_system (TransactionDone [0; 0; 0; 0; 0] 5) = listening_system
  /\ play 69 69 [CallOutboundFrameFeedData (replicate 30 7)] listening_system
     = staged_system.
Proof. vm_compute. split; reflexivity. Qed.

(** A header written over bytes that were all 0xFF. *)
Lemma header_write_read_witness :
  let h' := spi_header_set_data_len
              (spi_header_set_accept_len
                 (spi_header_set_flag_byte [0xFF; 0xFF; 0xFF; 0xFF; 0xFF; 7]
                    0x80) 300) 258 in
  spi_header_get_flag_byte h' = 0x80
  /\ spi_header_get_accept_len h' = 300
  /\ spi_header_get_data_len h' = 258
  /\ take 5 h' = [0x80; 44; 1; 2; 1]
  /\ drop 5 h' = [7].
Proof.
  assert (5 <= length [0xFF; 0xFF; 0xFF; 0xFF; 0xFF; 7])%nat as Hl
    by (cbn; lia).
  assert (0 <= 0x80 < 256) as Hf by lia.
  assert (0 <= 300 < 65536) as Ha by lia.
  assert (0 <= 258 < 65536) as Hd by lia.
  destruct (header_write_read [0xFF; 0xFF; 0xFF; 0xFF; 0xFF; 7]
              0x80 300 258 Hl Hf Ha Hd) as (H1 & H2 & H3 & H4 & H5 & _).
  split; [exact H1 |]. split; [exact H2 |]. split; [exact H3 |].
  split; [exact H4 | exact H5].
Defined.

(** The header of the send buffer of [in_flight_object], read and written
    back. *)
Lemma header_read_write_witness :
  spi_header_get_data_len [0; 0; 0; 30; 0; 7] = 30
  /\ spi_header_set_data_len [0; 0; 0; 30; 0; 7]
       (spi_header_get_data_len [0; 0; 0; 30; 0; 7])
     = [0; 0; 0; 30; 0; 7].
Proof.
  assert (5 <= length [0; 0; 0; 30; 0; 7])%nat as Hl by (cbn; lia).
  assert (header_bytes_ok [0; 0; 0; 30; 0; 7]) as Hok
    by (unfold header_bytes_ok; cbn; repeat (constructor; [lia |]);
        constructor).
  destruct (header_read_write [0; 0; 0; 30; 0; 7]) as (_ & H).
  destruct (H Hl Hok) as (_ & _ & Hd & _ & _ & Hw).
  split; [exact Hd | exact Hw].
Defined.

(** With 30 bytes staged in 64 bytes of payload, 34 remain. *)
Lemma frame_size_and_remaining_witness :
  result (OutboundFrameSize staged_object) = 30
  /\ result (OutboundFrameGetRemaining 69 staged_object) = 34.
Proof.
  assert (cursor_ok 69 staged_object) as Hcur
    by (vm_compute; split; discriminate).
  destruct (frame_size_and_remaining 69 sizes_69 staged_object)
    as (_ & _ & _ & H & _).
  destruct (H Hcur) as (Hsize & Hrem & _).
  split; [exact Hsize | exact Hrem].
Defined.

(** Feeds of 30 and of 34 bytes fill the payload as one feed of 64 does. *)
Lemma feeds_compose_witness :
  let r1 := OutboundFrameFeedData 69 (replicate 30 1) 30 idle_object in
  let r2 := OutboundFrameFeedData 69 (replicate 34 2) 34 (after r1) in
  let r := OutboundFrameFeedData 69 (replicate 30 1 ++ replicate 34 2) 64
             idle_object in
  result r2 = kThreadError_None
  /\ result r = kThreadError_None
  /\ after r2 = after r.
Proof.
  assert (sized 69 69 idle_object) as Hsized by (repeat split).
  assert (cursor_ok 69 idle_object) as Hcur
    by (vm_compute; split; discriminate).
  destruct (feeds_compose 69 69 sizes_69 idle_object
              (replicate 30 1) (replicate 34 2) Hsized Hcur)
    as (_ & Hfit & _).
  assert (30 + 34 <= payload_capacity 69 - staged idle_object) as Hle
    by (vm_compute; discriminate).
  destruct (Hfit Hle) as (_ & H2 & H & Heq & _).
  split; [exact H2 |]. split; [exact H | exact Heq].
Defined.

(** A frame of 32 bytes in two chunks, right after construction, the
    driver busy. *)
Lemma send_frame_stages_payload_witness :
  let r := send_frame 69 [replicate 30 7; [1; 2]] kThreadError_Busy
             fresh_object in
  result r
  = (kThreadError_None, [kThreadError_None; kThreadError_None],
     kThreadError_None)
  /\ calls r
     = [SpiSlavePrepareTransaction
          (Transaction SendFrame 37 EmptyReceiveFrame 5 true)]
  /\ spi_header_get_data_len (mSendFrame (after r)) = 32
  /\ view (after r) SendFrame 5 32 = replicate 30 7 ++ [1; 2].
Proof.
  assert (Z.of_nat (length (concat [replicate 30 7; [1; 2]]))
          <= payload_capacity 69) as Hle
    by (vm_compute; discriminate).
  destruct (send_frame_stages_payload 69 69 sizes_69 fresh_object
              [replicate 30 7; [1; 2]] kThreadError_Busy
              sized_fresh_object eq_refl Hle)
    as (Hres & Hcalls & Hdata & _ & _ & Hview & _).
  split; [exact Hres |]. split; [exact Hcalls |].
  split; [exact Hdata | exact Hview].
Defined.

(** Over the history of the examples the queue and the flags agree. *)
Lemma tasklets_posted_once_witness :
  let y := play 69 69 some_actions fresh_system in
  posted_once y /\ (length (posted y) <= 2)%nat.
Proof.
  assert (posted_once fresh_system) as Hinv by (split; reflexivity).
  destruct (tasklets_posted_once 69 69 fresh_system some_actions Hinv)
    as (H & _ & _ & _ & Hlen).
  split; [exact H | exact Hlen].
Defined.

(** Over the history of the examples, which ends with a message of 100
    bytes that is refused, the cursor and the transactions stay inside the
    69 bytes. *)
Lemma transport_stays_in_its_buffers_witness :
  let y := play 69 69 some_actions fresh_system in
  sized 69 69 (ncp y) /\ cursor_ok 69 (ncp y) /\ armed_fits y.
Proof.
  assert (armed_fits fresh_system) as Hfits
    by (vm_compute; repeat split; discriminate).
  assert (cursor_ok 69 (ncp fresh_system)) as Hcur
    by (vm_compute; split; discriminate).
  exact (transport_stays_in_its_buffers 69 69 sizes_69 sizes_69
           fresh_system some_actions sized_fresh_object Hfits
           (or_introl Hcur)).
Defined.

(** The frame of three bytes is delivered after two more transactions, a
    feed, a send and a begin. *)
Lemma received_frame_is_held_and_delivered_witness :
  let y1 := step 69 listening_system (TransactionDone master_frame 8) in
  let y2 := play 69 69 deferring_actions y1 in
  mHandleRxFrame ∈ posted y2
  /\ calls (HandleRxFrame (ncp y2)) = [HandleReceive ReceiveFrame 5 3]
  /\ view (ncp y2) ReceiveFrame 5 3 = [1; 2; 3].
Proof.
  assert (sized 69 69 (ncp listening_system)) as Hsized by (repeat split).
  assert (SPI_HEADER_LENGTH <= 5) as H5 by (vm_compute; discriminate).
  assert (0 < 3) as Hpos by lia.
  assert (SPI_HEADER_LENGTH + 3 <= 8) as Hcover
    by (vm_compute; discriminate).
  assert (SPI_HEADER_LENGTH + 3 <= 69) as Hroom
    by (vm_compute; discriminate).
  assert (3 <= 64) as Hacc by lia.
  destruct (received_frame_is_held_and_delivered 69 69 sizes_69
              listening_system
              (Transaction EmptySendFrame 5 ReceiveFrame 69 false)
              master_frame 8 deferring_actions
              Hsized eq_refl eq_refl eq_refl eq_refl H5 eq_refl
              Hpos eq_refl Hcover Hroom Hacc eq_refl)
    as (_ & Hposted & _ & _ & Hcalls & Hview).
  split; [exact Hposted |]. split; [exact Hcalls | exact Hview].
Defined.

(** The 30 bytes staged are sent and taken by a master that accepts 64. *)
Lemma sent_frame_is_confirmed_witness :
  let y1 := call_OutboundFrameSend kThreadError_None staged_system in
  let y2 := step 69 y1 (TransactionDone [0; 64; 0; 0; 0] 35) in
  let r := HandleSendDone (ncp y2) in
  posted y2 = [mHandleSendDone]
  /\ calls r = [HandleSpaceAvailableInTxBuffer]
  /\ result (OutboundFrameBegin (after r)) = kThreadError_None.
Proof.
  assert (sized 69 69 (ncp staged_system)) as Hsized by (repeat split).
  assert (cursor_ok 69 (ncp staged_system)) as Hcur
    by (vm_compute; split; discriminate).
  assert (0 < 30) as Hpos by lia.
  assert (SPI_HEADER_LENGTH <= 5) as Hhdr by (vm_compute; discriminate).
  assert (30 <= 64) as Hacc by lia.
  assert (SPI_HEADER_LENGTH + 30 <= 35) as Hcover
    by (vm_compute; discriminate).
  destruct (sent_frame_is_confirmed 69 69 sizes_69 staged_system
              [0; 64; 0; 0; 0] 35 Hsized Hcur eq_refl eq_refl
              Hpos Hhdr Hacc Hcover)
    as (_ & Hposted & _ & _ & Hcalls & _ & _ & Hbegin).
  split; [exact Hposted |]. split; [exact Hcalls | exact Hbegin].
Defined.

(** A transaction cut short after 20 bytes: the 35 bytes go out again. *)
Lemma unconfirmed_frame_is_offered_again_witness :
  let r := SpiTransactionComplete 69
             (Completion SendFrame 35 EmptyReceiveFrame 5 20)
             in_flight_object in
  (exists t, prepared (calls r) = [t]
     /\ aOutputBuf t = SendFrame
     /\ aOutputBufLen t = 35
     /\ aRequestTransactionFlag t = true)
  /\ drop 5 (mSendFrame (after r)) = replicate 30 7 ++ replicate 34 0
  /\ result (OutboundFrameBegin (after r)) = kThreadError_Busy.
Proof.
  assert (sized 69 69 in_flight_object) as Hsized by (repeat split).
  assert (cursor_ok 69 in_flight_object) as Hcur
    by (vm_compute; split; discriminate).
  destruct (unconfirmed_frame_is_offered_again 69 69 sizes_69
              in_flight_object
              (Completion SendFrame 35 EmptyReceiveFrame 5 20)
              Hsized Hcur eq_refl eq_refl) as (Hshort & Hagain).
  assert (20 < SPI_HEADER_LENGTH + 30) as Hcut by (vm_compute; reflexivity).
  destruct (Hagain (Hshort Hcut)) as (Ht & _ & Hdrop & _ & _ & _ & Hbusy).
  split; [exact Ht |]. split; [exact Hdrop | exact Hbusy].
Defined.

(** Construction over zeroed storage, the master sending 0xFF throughout
    the first transaction. *)
Lemma first_transaction_after_construction_witness :
  let r0 := NcpSpi_ctor 69 4 zeroed_storage in
  let y0 := foldl absorb (System (after r0) [] None) (calls r0) in
  let y1 := step 69 y0 (TransactionDone [0xFF; 0xFF; 0xFF; 0xFF; 0xFF] 5) in
  posted y1 = []
  /\ flag_bytes (ncp y1) = (0, 0)
  /\ armed y1 = Some (Transaction EmptySendFrame 5 ReceiveFrame 69 false)
  /\ spi_header_get_accept_len (mEmptySendFrame (ncp y1)) = 64.
Proof.
  assert (sized 69 69 zeroed_storage) as Hsized by (repeat split).
  assert (3 <= 4) as H3 by lia.
  destruct (first_transaction_after_construction 69 69 4 sizes_69 sizes_69
              zeroed_storage [0xFF; 0xFF; 0xFF; 0xFF; 0xFF] 5 Hsized H3)
    as (_ & _ & _ & Hposted & _ & Hflags & Hnext).
  destruct (Hnext eq_refl) as (Harmed & Hacc).
  split; [exact Hposted |]. split; [exact Hflags |].
  split; [exact Harmed | exact Hacc].
Defined.
